(** * workmate_dev_test: a shallow embedding of [main.py]

    The program reads a CSV file into a list of rows, optionally filters the
    rows by one comparison ([--where]), prints them, and prints the
    aggregates [avg], [min] and [max] of numeric columns ([--aggregate]).

    The embedding follows [main.py] function by function.  Python values
    are modelled as follows.

    - [str] is [string]; a character stands for the code point of the same
      number, so the model covers the strings whose code points are below
      256.
    - [float] is an IEEE-754 binary64 number, [spec_float] with precision 53
      and maximal exponent 1024.
    - A [Dict[str, str]] row is an association list: a Python dictionary
      keeps its keys in insertion order, and the column analysis depends on
      that order.
    - A raised exception is the [Err] case of [result]; [try ... except]
      is a pattern match on the exception class.
    - [print] appends to an output trace.  [tabulate] is an external
      renderer: a printed table is recorded with its arguments.
    - [argparse] and [csv.DictReader] are an input: [main] takes the parsed
      arguments and the rows that [read_csv] returned. *)

From Stdlib Require Import ZArith List Bool Lia.
From Stdlib Require Import Ascii String DecimalString.
From Stdlib Require Import Floats.SpecFloat.
Import ListNotations.

Local Open Scope string_scope.
Local Open Scope list_scope.
Local Open Scope Z_scope.

(** ** Exceptions and fallible computations *)

(** The exception classes the program can raise.  The messages of the two
    exceptions that [main.py] raises itself are the source's; those of the
    interpreter are CPython's, the quoted operand of a failed [float] call
    left out. *)
Inductive exn : Type :=
| ValueError (msg : string)
| KeyError (key : string)
| TypeError (msg : string)
| IndexError (msg : string).

Inductive result (A : Type) : Type :=
| Ok (a : A)
| Err (e : exn).

Arguments Ok {A} a.
Arguments Err {A} e.

Definition bind {A B : Type} (r : result A) (k : A -> result B) : result B :=
  match r with
  | Ok a => k a
  | Err e => Err e
  end.

Notation "x <- r ;; k" := (bind r (fun x => k))
  (at level 61, r at next level, right associativity).
Notation "' p <- r ;; k" := (bind r (fun x => let p := x in k))
  (at level 61, p pattern, r at next level, right associativity).

(** ** The [str] methods the program calls *)

Module Str.

(** [c in s], for a one-character string [c]. *)
Fixpoint contains (c : ascii) (s : string) : bool :=
  match s with
  | EmptyString => false
  | String a s' => Ascii.eqb a c || contains c s'
  end.

(** The number of occurrences of [c] in [s]. *)
Fixpoint count (c : ascii) (s : string) : nat :=
  match s with
  | EmptyString => O
  | String a s' => if Ascii.eqb a c then S (count c s') else count c s'
  end.

(** [s.split(c)], for a one-character separator: the pieces between all
    the occurrences of [c]. *)
Fixpoint split (c : ascii) (s : string) : list string :=
  match s with
  | EmptyString => [EmptyString]
  | String a s' =>
      if Ascii.eqb a c then EmptyString :: split c s'
      else match split c s' with
           | [] => [String a EmptyString]
           | p :: ps => String a p :: ps
           end
  end.

(** [str.isspace] on one character, for the code points below 256. *)
Definition is_space (a : ascii) : bool :=
  let n := Z.of_N (N_of_ascii a) in
  ((9 <=? n) && (n <=? 13)) || ((28 <=? n) && (n <=? 32))
  || (n =? 133) || (n =? 160).

Fixpoint lstrip (s : string) : string :=
  match s with
  | EmptyString => EmptyString
  | String a s' => if is_space a then lstrip s' else s
  end.

Fixpoint rstrip (s : string) : string :=
  match s with
  | EmptyString => EmptyString
  | String a s' =>
      match rstrip s' with
      | EmptyString => if is_space a then EmptyString else String a EmptyString
      | t => String a t
      end
  end.

(** [s.strip()]. *)
Definition strip (s : string) : string := rstrip (lstrip s).

(** ASCII lower case, as the parser of [float] applies it. *)
Definition lower (a : ascii) : ascii :=
  let n := N_of_ascii a in
  if ((65 <=? n) && (n <=? 90))%N then ascii_of_N (n + 32) else a.

Fixpoint lower_all (s : string) : string :=
  match s with
  | EmptyString => EmptyString
  | String a s' => String (lower a) (lower_all s')
  end.

End Str.

(** Unpacking a list into two targets, [a, b = l]. *)
Definition unpack2 {A : Type} (l : list A) : result (A * A) :=
  match l with
  | [a; b] => Ok (a, b)
  | _ :: _ :: _ :: _ => Err (ValueError "too many values to unpack (expected 2)")
  | _ => Err (ValueError "not enough values to unpack (expected 2)")
  end.

(** ** Floating-point numbers *)

Module Float.

Definition prec : Z := 53.
Definition emax : Z := 1024.

(** The type of Python floats. *)
Definition t : Type := spec_float.

Definition zero : t := S754_zero false.
Definition add : t -> t -> t := SFadd prec emax.
Definition div : t -> t -> t := SFdiv prec emax.
Definition ltb : t -> t -> bool := SFltb.
Definition gtb (x y : t) : bool := SFltb y x.
Definition eqb : t -> t -> bool := SFeqb.

(** The float nearest to an integer, ties to even. *)
Definition of_Z (n : Z) : t := binary_normalize prec emax n 0 false.

(** The float nearest to [num / den] for positive [num] and [den], ties to
    even: the quotient is computed with enough bits and the position of
    the remainder, then rounded. *)
Definition round_ratio (sign : bool) (num den : Z) : t :=
  let '(q, e, l) := SFdiv_core_binary prec emax num 0 den 0 in
  binary_round_aux prec emax sign q e l.

(** The float nearest to [m * 10 ^ e], for [0 <= m]. *)
Definition of_decimal (sign : bool) (m e : Z) : t :=
  if m =? 0 then S754_zero sign
  else if 0 <=? e then round_ratio sign (m * 10 ^ e) 1
  else round_ratio sign m (10 ^ (- e)).

(** *** [float(s)] on a string

    After the surrounding white space is removed ([trim] below) the string
    must match
<<
    floatvalue ::= [sign] (floatnumber | "inf" | "infinity" | "nan")
    floatnumber ::= number [("e" | "E") [sign] digitpart]
    number      ::= [digitpart] "." digitpart | digitpart ["."]
    digitpart   ::= digit (["_"] digit)*
>>
    with the three words in any case. *)

Definition digit_val (a : ascii) : option Z :=
  let n := Z.of_N (N_of_ascii a) in
  if (48 <=? n) && (n <=? 57) then Some (n - 48) else None.

(** The digits that follow the first digit of a [digitpart]; [acc] is the
    value and [n] the number of the digits read so far. *)
Fixpoint digits_tail (s : string) (acc n : Z) : Z * Z * string :=
  match s with
  | EmptyString => (acc, n, s)
  | String a s' =>
      match digit_val a with
      | Some d => digits_tail s' (10 * acc + d) (n + 1)
      | None =>
          if Ascii.eqb a "_" then
            match s' with
            | String b s'' =>
                match digit_val b with
                | Some d => digits_tail s'' (10 * acc + d) (n + 1)
                | None => (acc, n, s)
                end
            | EmptyString => (acc, n, s)
            end
          else (acc, n, s)
      end
  end.

Definition digitpart (s : string) (acc n : Z) : option (Z * Z * string) :=
  match s with
  | EmptyString => None
  | String a s' =>
      match digit_val a with
      | Some d => Some (digits_tail s' (10 * acc + d) (n + 1))
      | None => None
      end
  end.

(** [number]: the value of all its digits, the number of digits after the
    point, and the rest of the string. *)
Definition number (s : string) : option (Z * Z * string) :=
  match digitpart s 0 0 with
  | Some (m, _, String "." rest) =>
      match digitpart rest m 0 with
      | Some r => Some r
      | None => Some (m, 0, rest)
      end
  | Some (m, _, rest) => Some (m, 0, rest)
  | None =>
      match s with
      | String "." rest => digitpart rest 0 0
      | _ => None
      end
  end.

Definition sign_of (s : string) : bool * string :=
  match s with
  | String "-" s' => (true, s')
  | String "+" s' => (false, s')
  | _ => (false, s)
  end.

(** The exponent part, which must end the string. *)
Definition exponent (s : string) : option Z :=
  match s with
  | EmptyString => Some 0
  | String a s' =>
      if Ascii.eqb (Str.lower a) "e" then
        let '(neg, s'') := sign_of s' in
        match digitpart s'' 0 0 with
        | Some (x, _, EmptyString) => Some (if neg then - x else x)
        | _ => None
        end
      else None
  end.

Definition floatvalue (s : string) : option t :=
  let '(neg, body) := sign_of s in
  let word := Str.lower_all body in
  if (word =? "inf")%string || (word =? "infinity")%string
  then Some (S754_infinity neg)
  else if (word =? "nan")%string then Some S754_nan
  else
    match number body with
    | Some (m, fraclen, rest) =>
        match exponent rest with
        | Some x => Some (of_decimal neg m (x - fraclen))
        | None => None
        end
    | None => None
    end.

(** The white space that [float] removes around the number: the ASCII
    white space, and U+0085 and U+00A0 of the code points above the ASCII
    range.  The code points U+001C to U+001F, which [str.strip] removes,
    are not white space for [float]: a string with one of them is not a
    number. *)
Definition is_blank (a : ascii) : bool :=
  let n := Z.of_N (N_of_ascii a) in
  ((9 <=? n) && (n <=? 13)) || (n =? 32) || (n =? 133) || (n =? 160).

Fixpoint skip_blank (s : string) : string :=
  match s with
  | EmptyString => EmptyString
  | String a s' => if is_blank a then skip_blank s' else s
  end.

Fixpoint drop_blank (s : string) : string :=
  match s with
  | EmptyString => EmptyString
  | String a s' =>
      match drop_blank s' with
      | EmptyString => if is_blank a then EmptyString else String a EmptyString
      | rest => String a rest
      end
  end.

Definition trim (s : string) : string := drop_blank (skip_blank s).

(** [float(s)] where it does not raise. *)
Definition parse (s : string) : option t := floatvalue (trim s).

End Float.

Definition float : Type := Float.t.

(** [float(s)]: a string that is not a number raises [ValueError]. *)
Definition float_of_str (s : string) : result float :=
  match Float.parse s with
  | Some x => Ok x
  | None => Err (ValueError "could not convert string to float")
  end.

(** [f'{x:.2f}'] on a float: the decimal with two digits after the point
    nearest to the exact value of [x], ties to even. *)
Definition round_half_even (num den : Z) : Z :=
  let q := num / den in
  match (2 * (num mod den) ?= den) with
  | Lt => q
  | Eq => if Z.even q then q else q + 1
  | Gt => q + 1
  end.

Definition string_of_Z (n : Z) : string :=
  NilZero.string_of_uint (N.to_uint (Z.to_N n)).

Definition format_2f (x : float) : string :=
  match x with
  | S754_nan => "nan"
  | S754_infinity s => if s then "-inf" else "inf"
  | S754_zero s => if s then "-0.00" else "0.00"
  | S754_finite s m e =>
      let n := if 0 <=? e then Zpos m * 2 ^ e * 100
               else round_half_even (Zpos m * 100) (2 ^ (- e)) in
      ((if s then "-" else EmptyString) ++ string_of_Z (n / 100) ++ "."
       ++ string_of_Z (n mod 100 / 10) ++ string_of_Z (n mod 10))%string
  end.

(** ** Rows *)

(** A row of [csv.DictReader], [Dict[str, str]]: the columns in the order of
    the header, each with the cell of the row. *)
Definition Row : Type := list (string * string).

(** [row[key]]. *)
Fixpoint getitem {V : Type} (row : list (string * V)) (key : string)
  : result V :=
  match row with
  | [] => Err (KeyError key)
  | (k, v) :: rest => if (k =? key)%string then Ok v else getitem rest key
  end.

(** [row.keys()], in insertion order. *)
Definition keys {V : Type} (row : list (string * V)) : list string :=
  map fst row.

(** ** [filter_data] *)

(** The operands of a comparison in [filter_data]: a cell or the comparison
    value, as a string or converted to a float. *)
Inductive pyval : Type :=
| VStr (s : string)
| VFloat (x : float).

(** The three functions of the [operator] module in the table [ops]. *)
Inductive operator : Type :=
| operator_gt
| operator_lt
| operator_eq.

(** Calling an operator function.  An order comparison of a string with a
    float raises [TypeError]; an equality test of the two is [False]. *)
Definition call (op_func : operator) (a b : pyval) : result bool :=
  match op_func, a, b with
  | operator_gt, VFloat x, VFloat y => Ok (Float.gtb x y)
  | operator_lt, VFloat x, VFloat y => Ok (Float.ltb x y)
  | operator_eq, VFloat x, VFloat y => Ok (Float.eqb x y)
  | operator_gt, VStr s, VStr t => Ok (String.ltb t s)
  | operator_lt, VStr s, VStr t => Ok (String.ltb s t)
  | operator_eq, VStr s, VStr t => Ok (String.eqb s t)
  | operator_eq, _, _ => Ok false
  | operator_gt, VStr _, VFloat _ =>
      Err (TypeError "'>' not supported between instances of 'str' and 'float'")
  | operator_gt, VFloat _, VStr _ =>
      Err (TypeError "'>' not supported between instances of 'float' and 'str'")
  | operator_lt, VStr _, VFloat _ =>
      Err (TypeError "'<' not supported between instances of 'str' and 'float'")
  | operator_lt, VFloat _, VStr _ =>
      Err (TypeError "'<' not supported between instances of 'float' and 'str'")
  end.

(** The table [ops], in the order of its keys. *)
Definition ops : list (ascii * operator) :=
  [(">"%char, operator_gt); ("<"%char, operator_lt); ("="%char, operator_eq)].

(** The loop [for op_str in ops: ... else: raise ...] of [filter_data]:
    the first key of the table that occurs in the condition splits it.  The
    result is [(column, value, op_func)]. *)
Fixpoint parse_condition_in (table : list (ascii * operator))
    (condition : string) : result (string * string * operator) :=
  match table with
  | [] => Err (ValueError "Invalid filter condition")
  | (op_str, op_func) :: rest =>
      if Str.contains op_str condition then
        '(column, value) <- unpack2 (Str.split op_str condition) ;;
        Ok (Str.strip column, Str.strip value, op_func)
      else parse_condition_in rest condition
  end.

Definition parse_condition (condition : string)
  : result (string * string * operator) :=
  parse_condition_in ops condition.

(** A list comprehension [[row for row in data if p(row)]] whose condition
    can raise: the first exception ends it. *)
Fixpoint comprehension_if (p : Row -> result bool) (data : list Row)
  : result (list Row) :=
  match data with
  | [] => Ok []
  | row :: rest =>
      b <- p row ;;
      rows <- comprehension_if p rest ;;
      Ok (if b then row :: rows else rows)
  end.

(** The body of the [try] statement of [filter_data].  The first component
    is the variable [value] when the body ends: the assignment
    [value = float(value)] replaces the string by the float only when the
    conversion succeeds. *)
Definition filter_try (data : list Row) (column value : string)
    (op_func : operator) : pyval * result (list Row) :=
  match float_of_str value with
  | Err e => (VStr value, Err e)
  | Ok x =>
      (VFloat x,
       comprehension_if
         (fun row =>
            cell <- getitem row column ;;
            y <- float_of_str cell ;;
            call op_func (VFloat y) (VFloat x))
         data)
  end.

(** The [except ValueError] clause: the cells are compared as strings with
    the variable [value] as the body left it. *)
Definition filter_except (data : list Row) (column : string) (value : pyval)
    (op_func : operator) : result (list Row) :=
  comprehension_if
    (fun row =>
       cell <- getitem row column ;;
       call op_func (VStr cell) value)
    data.

Definition filter_data (data : list Row) (condition : string)
  : result (list Row) :=
  '(column, value, op_func) <- parse_condition condition ;;
  match filter_try data column value op_func with
  | (value', Err (ValueError _)) => filter_except data column value' op_func
  | (_, r) => r
  end.

(** ** [try_float] *)

Definition try_float (value : string) : result (option float) :=
  match float_of_str value with
  | Ok x => Ok (Some x)
  | Err (ValueError _) => Ok None
  | Err e => Err e
  end.

(** ** [Aggregator] *)

(** What a reducer returns: [avg] of an empty list is the integer [0], every
    other result is a float. *)
Inductive number : Type :=
| NInt (n : Z)
| NFloat (x : float).

(** [f'{x:.2f}'] on a reducer's result; an integer is converted to a float
    first. *)
Definition format_number (x : number) : string :=
  match x with
  | NInt n => format_2f (Float.of_Z n)
  | NFloat y => format_2f y
  end.

Module Aggregator.

(** [sum(x)]: the floats are added from left to right, starting from the
    integer [0], which the first addition converts to a float.  (CPython
    from 3.12 on also carries the rounding errors of the additions along;
    on a sum whose additions are all exact the result is the same.) *)
Definition sum (x : list float) : float := fold_left Float.add x Float.zero.

(** [lambda x: sum(x) / len(x) if x else 0]. *)
Definition avg (x : list float) : result number :=
  match x with
  | [] => Ok (NInt 0)
  | _ :: _ => Ok (NFloat (Float.div (sum x) (Float.of_Z (Z.of_nat (List.length x)))))
  end.

(** The builtin [min]: it keeps the first item and replaces it by each later
    item that is smaller; an empty argument raises [ValueError]. *)
Definition min (x : list float) : result number :=
  match x with
  | [] => Err (ValueError "min() arg is an empty sequence")
  | first :: rest =>
      Ok (NFloat (fold_left
                    (fun best item => if Float.ltb item best then item else best)
                    rest first))
  end.

(** The builtin [max]. *)
Definition max (x : list float) : result number :=
  match x with
  | [] => Err (ValueError "max() arg is an empty sequence")
  | first :: rest =>
      Ok (NFloat (fold_left
                    (fun best item => if Float.gtb item best then item else best)
                    rest first))
  end.

(** [self.functions], in the order of its keys. *)
Definition functions : list (string * (list float -> result number)) :=
  [("avg", avg); ("min", min); ("max", max)].

(** [func in self.functions]. *)
Definition has_key (func : string) : bool :=
  existsb (String.eqb func) (keys functions).

(** [Aggregator.apply]. *)
Definition apply (func : string) (values : list float) : result number :=
  if negb (has_key func)
  then Err (ValueError ("Unsupported aggregate function: " ++ func)%string)
  else
    f <- getitem functions func ;;
    f values.

(** The list comprehension of [Aggregator.all] over the keys that remain. *)
Fixpoint all_from (ks : list string) (values : list float)
  : result (list (string * string)) :=
  match ks with
  | [] => Ok []
  | key :: rest =>
      f <- getitem functions key ;;
      v <- f values ;;
      items <- all_from rest values ;;
      Ok ((key, format_number v) :: items)
  end.

(** [Aggregator.all]: one item [[key, formatted value]] per key of the
    table; the two-element list is a pair here. *)
Definition all (values : list float) : result (list (string * string)) :=
  all_from (keys functions) values.

End Aggregator.

(** ** Output *)

(** What [main] prints, in order. *)
Inductive output : Type :=
| print_str (msg : string)
    (* print(msg) *)
| print_rows (data : list Row)
    (* print(tabulate(data, headers='keys', tablefmt='grid')) *)
| print_table (table : list (list string)) (headers : list string).
    (* print(tabulate(table, headers=headers, tablefmt='grid')) *)

(** A run: what was printed, and how the run ended. *)
Definition io (A : Type) : Type := list output * result A.

Definition io_ret {A : Type} (a : A) : io A := ([], Ok a).

Definition io_bind {A B : Type} (m : io A) (k : A -> io B) : io B :=
  match m with
  | (out, Ok a) => let '(out', r) := k a in (out ++ out', r)
  | (out, Err e) => (out, Err e)
  end.

Definition lift {A : Type} (r : result A) : io A := ([], r).

Definition print (o : output) : io unit := ([o], Ok tt).

Notation "x <-- m ;; k" := (io_bind m (fun x => k))
  (at level 61, m at next level, right associativity).
Notation "' p <-- m ;; k" := (io_bind m (fun x => let p := x in k))
  (at level 61, p pattern, m at next level, right associativity).
Notation "m ;;; k" := (io_bind m (fun _ => k))
  (at level 61, right associativity).

(** ** [aggregate_all_columns] *)

(** [all(p(row) for row in data)] for a condition that can raise: it stops
    at the first row where the condition is false. *)
Fixpoint all_rows (p : Row -> result bool) (data : list Row) : result bool :=
  match data with
  | [] => Ok true
  | row :: rest =>
      b <- p row ;;
      if b then all_rows p rest else Ok false
  end.

(** [try_float(row[key]) is not None]. *)
Definition is_numeric_cell (key : string) (row : Row) : result bool :=
  cell <- getitem row key ;;
  x <- try_float cell ;;
  Ok (match x with Some _ => true | None => false end).

(** The loop over [data[0].keys()] that fills [numeric_columns]. *)
Fixpoint numeric_columns_loop (ks : list string) (data : list Row)
    (numeric_columns : list string) : result (list string) :=
  match ks with
  | [] => Ok numeric_columns
  | key :: rest =>
      b <- all_rows (is_numeric_cell key) data ;;
      numeric_columns_loop rest data
        (if b then numeric_columns ++ [key] else numeric_columns)
  end.

(** [data[0]]. *)
Definition first_row (data : list Row) : result Row :=
  match data with
  | [] => Err (IndexError "list index out of range")
  | row :: _ => Ok row
  end.

(** The first four lines of [aggregate_all_columns]: the numeric columns. *)
Definition numeric_columns (data : list Row) : result (list string) :=
  row0 <- first_row data ;;
  numeric_columns_loop (keys row0) data [].

(** [[float(row[column]) for row in data]]. *)
Fixpoint column_values (data : list Row) (column : string)
  : result (list float) :=
  match data with
  | [] => Ok []
  | row :: rest =>
      cell <- getitem row column ;;
      x <- float_of_str cell ;;
      xs <- column_values rest column ;;
      Ok (x :: xs)
  end.

(** The loop that fills [result_table]. *)
Fixpoint result_table_loop (columns : list string) (data : list Row)
    (result_table : list (list string)) : result (list (list string)) :=
  match columns with
  | [] => Ok result_table
  | column :: rest =>
      values <- column_values data column ;;
      items <- Aggregator.all values ;;
      result_table_loop rest data
        (result_table ++ map (fun '(func, val) => [func; column; val]) items)
  end.

Definition aggregate_all_columns (data : list Row) : io unit :=
  columns <-- lift (numeric_columns data) ;;
  result_table <-- lift (result_table_loop columns data []) ;;
  print (print_table result_table ["func"; "column"; "value"]).

(** ** [main] *)

(** The result of [parser.parse_args()]; an option that was not given is
    [None]. *)
Record Args : Type := {
  file : string;
  where_ : option string;
  aggregate : option string
}.

(** The truth value of an optional string: [None] and the empty string are
    false. *)
Definition truthy (o : option string) : option string :=
  match o with
  | Some EmptyString => None
  | _ => o
  end.

(** The branch [if args.aggregate:] of [main], for the argument [arg]. *)
Definition main_aggregate (data : list Row) (arg : string) : io unit :=
  if negb (Str.contains "=" arg) then
    print (print_str "Invalid aggregate argument. Use column=func format.")
  else
    '(column, func) <-- lift (unpack2 (Str.split "=" arg)) ;;
    let column := Str.strip column in
    let func := Str.strip func in
    match column_values data column with
    | Err (ValueError _) =>
        print (print_str "Aggregation can only be applied to numeric columns.")
    | Err e => lift (Err e)
    | Ok values =>
        if (func =? "all")%string then
          result <-- lift (Aggregator.all values) ;;
          print (print_table (map (fun '(f, v) => [f; column; v]) result)
                   ["func"; "column"; "value"])
        else
          result <-- lift (Aggregator.apply func values) ;;
          print (print_table [[format_number result]] [func])
    end.

(** The statement [if args.where: data = filter_data(data, args.where)]. *)
Definition main_filter (args : Args) (rows : list Row) : result (list Row) :=
  match truthy (where_ args) with
  | Some condition => filter_data rows condition
  | None => Ok rows
  end.

(** [main], after [parser.parse_args()] returned [args] and [read_csv]
    returned [rows]. *)
Definition main (args : Args) (rows : list Row) : io unit :=
  data <-- lift (main_filter args rows) ;;
  match data with
  | [] => print (print_str "No data matched the filter condition.")
  | _ :: _ =>
      print (print_rows data) ;;;
      match truthy (aggregate args) with
      | Some arg => main_aggregate data arg
      | None => aggregate_all_columns data
      end
  end.

(** ** Notions the properties are stated with *)

(** The part of [s] before the first occurrence of [c], and the part after
    it. *)
Fixpoint before (c : ascii) (s : string) : string :=
  match s with
  | EmptyString => EmptyString
  | String a s' => if Ascii.eqb a c then EmptyString else String a (before c s')
  end.

Fixpoint after (c : ascii) (s : string) : string :=
  match s with
  | EmptyString => EmptyString
  | String a s' => if Ascii.eqb a c then s' else after c s'
  end.

(** The operator that a condition selects when the tokens are tried in the
    order [>], [<], [=]. *)
Definition first_operator (condition : string) : option (ascii * operator) :=
  if Str.contains ">" condition then Some (">"%char, operator_gt)
  else if Str.contains "<" condition then Some ("<"%char, operator_lt)
  else if Str.contains "=" condition then Some ("="%char, operator_eq)
  else None.

(** The condition parser as the specification words it: the selected
    operator splits the condition at its first occurrence, whatever follows
    it. *)
Definition parse_condition_at_first_occurrence (condition : string)
  : result (string * string * operator) :=
  match first_operator condition with
  | Some (op_str, op_func) =>
      Ok (Str.strip (before op_str condition),
          Str.strip (after op_str condition), op_func)
  | None => Err (ValueError "Invalid filter condition")
  end.

(** None of the three operator tokens occurs in the condition. *)
Definition no_operator (condition : string) : Prop :=
  Str.contains ">" condition = false
  /\ Str.contains "<" condition = false
  /\ Str.contains "=" condition = false.

(** The comparison of two floats that an operator stands for. *)
Definition compare_floats (op_func : operator) (y x : float) : bool :=
  match op_func with
  | operator_gt => Float.gtb y x
  | operator_lt => Float.ltb y x
  | operator_eq => Float.eqb y x
  end.

(** The cell of [row] in [column] is a number that compares with [x] as the
    operator says. *)
Definition cell_satisfies (op_func : operator) (column : string) (x : float)
    (row : Row) : bool :=
  match getitem row column with
  | Ok cell =>
      match Float.parse cell with
      | Some y => compare_floats op_func y x
      | None => false
      end
  | Err _ => false
  end.

(** The cell of [row] in [column] is there and is a number. *)
Definition cell_is_float (column : string) (row : Row) : bool :=
  match getitem row column with
  | Ok cell =>
      match Float.parse cell with
      | Some _ => true
      | None => false
      end
  | Err _ => false
  end.

(** What a comparison of a string cell with a float value gives. *)
Definition str_float_comparison (op_func : operator) : result (list Row) :=
  match op_func with
  | operator_gt =>
      Err (TypeError "'>' not supported between instances of 'str' and 'float'")
  | operator_lt =>
      Err (TypeError "'<' not supported between instances of 'str' and 'float'")
  | operator_eq => Ok []
  end.

(** A string that ends with a point and two decimal digits. *)
Definition two_decimals (s : string) : Prop :=
  exists front d1 d2,
    s = (front ++ "." ++ String d1 (String d2 EmptyString))%string
    /\ Float.digit_val d1 <> None /\ Float.digit_val d2 <> None.

(** A float that is neither an infinity nor a NaN. *)
Definition is_finite (x : float) : bool :=
  match x with
  | S754_zero _ | S754_finite _ _ _ => true
  | S754_infinity _ | S754_nan => false
  end.

Definition invalid_aggregate : output :=
  print_str "Invalid aggregate argument. Use column=func format.".

Definition invalid_condition : exn := ValueError "Invalid filter condition".

Definition too_many_values : exn :=
  ValueError "too many values to unpack (expected 2)".

(** The rows of the examples. *)
Definition alice : Row := [("name", "Alice"); ("age", "30")].
Definition bob : Row := [("name", "Bob"); ("age", "25")].
Definition carol : Row := [("name", "Carol"); ("age", "abc")].

(** The comparison of two strings that an operator stands for: the order
    is the order of the code points, character by character. *)
Definition compare_strs (op_func : operator) (s t : string) : bool :=
  match op_func with
  | operator_gt => String.ltb t s
  | operator_lt => String.ltb s t
  | operator_eq => String.eqb s t
  end.

(** The cell of [row] in [column] compares, as a string, with [value] as
    the operator says. *)
Definition cell_satisfies_str (op_func : operator) (column value : string)
    (row : Row) : bool :=
  match getitem row column with
  | Ok cell => compare_strs op_func cell value
  | Err _ => false
  end.

(** The number in the cell of [row] in [column], where there is one. *)
Definition float_cell (column : string) (row : Row) : float :=
  match getitem row column with
  | Ok cell =>
      match Float.parse cell with
      | Some x => x
      | None => Float.zero
      end
  | Err _ => Float.zero
  end.

(** The three rows of the aggregate table for one column. *)
Definition summary_rows (column : string) (values : list float)
  : list (list string) :=
  match Aggregator.all values with
  | Ok items => map (fun '(func, val) => [func; column; val]) items
  | Err _ => []
  end.

Definition not_numeric : output :=
  print_str "Aggregation can only be applied to numeric columns.".

Definition no_data : output :=
  print_str "No data matched the filter condition.".

Definition table_headers : list string := ["func"; "column"; "value"].

(** The condition of the first comprehension of [filter_data], for the
    converted value [x], and the condition of the comprehension in the
    handler, for the variable [value] as the [try] body left it. *)
Definition numeric_test (op_func : operator) (column : string) (x : float)
    (row : Row) : result bool :=
  cell <- getitem row column ;;
  y <- float_of_str cell ;;
  call op_func (VFloat y) (VFloat x).

Definition string_test (op_func : operator) (column : string) (value : pyval)
    (row : Row) : result bool :=
  cell <- getitem row column ;;
  call op_func (VStr cell) value.

Definition not_a_float : exn := ValueError "could not convert string to float".

(** The exception is an [IndexError]. *)
Definition is_index_error (e : exn) : bool :=
  match e with
  | IndexError _ => true
  | _ => false
  end.

(** The columns that [aggregate_all_columns] aggregates, when every row has
    the columns of the first row. *)
Definition numeric_keys (data : list Row) : list string :=
  match data with
  | [] => []
  | row0 :: _ => filter (fun key => forallb (cell_is_float key) data) (keys row0)
  end.

(** Two rows for the white space of [float]: the cell ["\0317"] begins with
    the code point U+001F. *)
Definition padded_row : Row := [("k", "a"); ("v", String "031" "7")].
Definition plain_row : Row := [("k", "b"); ("v", "8")].

(** * Properties *)

(** ** Strings *)

Lemma contains_count (c : ascii) (s : string) :
  Str.contains c s = true <-> Str.count c s <> O.
Proof.
  induction s as [|a s IH]; simpl.
  - split; [discriminate | intros H; now elim H].
  - destruct (Ascii.eqb a c); simpl.
    + split; [discriminate | reflexivity].
    + exact IH.
Qed.

Lemma contains_false_count (c : ascii) (s : string) :
  Str.contains c s = false <-> Str.count c s = O.
Proof.
  destruct (contains_count c s) as [H1 H2].
  destruct (Str.contains c s); split; intros H; try reflexivity.
  - discriminate.
  - now elim (H1 eq_refl).
  - destruct (Str.count c s); [reflexivity | discriminate H2; discriminate].
Qed.

Lemma split_not_nil (c : ascii) (s : string) : Str.split c s <> [].
Proof.
  destruct s as [|a s]; simpl; [discriminate|].
  destruct (Ascii.eqb a c); [discriminate|].
  destruct (Str.split c s); discriminate.
Qed.

Lemma split_absent (c : ascii) (s : string) :
  Str.contains c s = false -> Str.split c s = [s].
Proof.
  induction s as [|a s IH]; simpl; [reflexivity|].
  destruct (Ascii.eqb a c); simpl; [discriminate|].
  intros H. now rewrite (IH H).
Qed.

Lemma split_present (c : ascii) (s : string) :
  Str.contains c s = true ->
  Str.split c s = before c s :: Str.split c (after c s).
Proof.
  induction s as [|a s IH]; simpl; [discriminate|].
  destruct (Ascii.eqb a c); simpl; [reflexivity|].
  intros H. now rewrite (IH H).
Qed.

Lemma count_present (c : ascii) (s : string) :
  Str.contains c s = true -> Str.count c s = S (Str.count c (after c s)).
Proof.
  induction s as [|a s IH]; simpl; [discriminate|].
  destruct (Ascii.eqb a c); simpl; [reflexivity | exact IH].
Qed.

Lemma before_after (c : ascii) (s : string) :
  Str.contains c s = true ->
  s = (before c s ++ String c (after c s))%string
  /\ Str.contains c (before c s) = false.
Proof.
  induction s as [|a s IH]; simpl; [discriminate|].
  destruct (Ascii.eqb a c) eqn:E; simpl.
  - apply Ascii.eqb_eq in E. subst a. now split.
  - intros H. destruct (IH H) as [H1 H2]. rewrite E. simpl.
    split; [now rewrite <- H1 | exact H2].
Qed.

(** A separator that occurs once gives two pieces. *)
Lemma split_once (c : ascii) (s : string) :
  Str.count c s = 1%nat ->
  unpack2 (Str.split c s) = Ok (before c s, after c s).
Proof.
  intros H.
  assert (Hc : Str.contains c s = true) by (apply contains_count; now rewrite H).
  rewrite (split_present c s Hc).
  rewrite (count_present c s Hc) in H. injection H as H.
  apply contains_false_count in H. now rewrite (split_absent _ _ H).
Qed.

(** A separator that occurs twice or more gives three pieces or more. *)
Lemma split_twice (c : ascii) (s : string) :
  (2 <= Str.count c s)%nat ->
  unpack2 (Str.split c s) = Err too_many_values.
Proof.
  intros H.
  assert (Hc : Str.contains c s = true) by (apply contains_count; lia).
  rewrite (split_present c s Hc).
  rewrite (count_present c s Hc) in H.
  assert (Hc' : Str.contains c (after c s) = true) by (apply contains_count; lia).
  rewrite (split_present _ _ Hc').
  pose proof (split_not_nil c (after c (after c s))) as Hn.
  destruct (Str.split c (after c (after c s))); [now elim Hn | reflexivity].
Qed.

(** ** The condition parser *)

Lemma parse_condition_first_operator (condition : string) :
  parse_condition condition =
  match first_operator condition with
  | Some (op_str, op_func) =>
      '(column, value) <- unpack2 (Str.split op_str condition) ;;
      Ok (Str.strip column, Str.strip value, op_func)
  | None => Err invalid_condition
  end.
Proof.
  unfold parse_condition, first_operator, ops. simpl.
  destruct (Str.contains ">" condition); [reflexivity|].
  destruct (Str.contains "<" condition); [reflexivity|].
  destruct (Str.contains "=" condition); reflexivity.
Qed.

Lemma first_operator_contains (condition : string) (op_str : ascii)
    (op_func : operator) :
  first_operator condition = Some (op_str, op_func) ->
  Str.contains op_str condition = true.
Proof.
  unfold first_operator.
  destruct (Str.contains ">" condition) eqn:E1;
    [intros H; injection H as <- <-; exact E1|].
  destruct (Str.contains "<" condition) eqn:E2;
    [intros H; injection H as <- <-; exact E2|].
  destruct (Str.contains "=" condition) eqn:E3;
    [intros H; injection H as <- <-; exact E3 | discriminate].
Qed.

Lemma first_operator_none (condition : string) :
  first_operator condition = None <-> no_operator condition.
Proof.
  unfold first_operator, no_operator.
  destruct (Str.contains ">" condition), (Str.contains "<" condition),
    (Str.contains "=" condition); split;
    try discriminate; try reflexivity; try (intros (? & ? & ?); discriminate).
  now intros _.
Qed.

Lemma unpack_split_present (c : ascii) (s : string) :
  Str.contains c s = true ->
  (Str.count c s = 1%nat /\ unpack2 (Str.split c s) = Ok (before c s, after c s))
  \/ ((2 <= Str.count c s)%nat /\ unpack2 (Str.split c s) = Err too_many_values).
Proof.
  intros H. apply contains_count in H.
  destruct (Nat.eq_dec (Str.count c s) 1) as [E|E].
  - left. split; [exact E | now apply split_once].
  - right. assert (2 <= Str.count c s)%nat by lia.
    split; [assumption | now apply split_twice].
Qed.

Lemma parse_condition_invalid (condition : string) :
  parse_condition condition = Err invalid_condition <-> no_operator condition.
Proof.
  rewrite parse_condition_first_operator, <- first_operator_none.
  destruct (first_operator condition) as [[op_str op_func]|] eqn:E.
  - split; [|discriminate].
    apply first_operator_contains in E.
    destruct (unpack_split_present _ _ E) as [[_ H]|[_ H]]; rewrite H; simpl;
      discriminate.
  - split; reflexivity.
Qed.

(** C3, as amended.  A condition that contains an operator token selects
    the first of [>], [<], [=] that occurs in it, and that token cuts the
    condition in the part before its first occurrence and the part after.
    When the selected token occurs exactly once, the parser returns the two
    parts without their surrounding white space, with the operator.  When
    it occurs more than once the parser raises: the split gives more than
    two pieces, which do not fit the two targets. *)
Theorem parse_condition_selected_operator (condition : string) :
  Str.contains ">" condition || Str.contains "<" condition
    || Str.contains "=" condition = true ->
  exists op_str op_func,
    first_operator condition = Some (op_str, op_func)
    /\ condition
       = (before op_str condition ++ String op_str (after op_str condition))%string
    /\ Str.contains op_str (before op_str condition) = false
    /\ (Str.count op_str condition = 1%nat ->
        parse_condition condition
        = Ok (Str.strip (before op_str condition),
              Str.strip (after op_str condition), op_func))
    /\ ((2 <= Str.count op_str condition)%nat ->
        parse_condition condition = Err too_many_values).
Proof.
  intros H.
  destruct (first_operator condition) as [[op_str op_func]|] eqn:E.
  - exists op_str, op_func. split; [reflexivity|].
    pose proof (first_operator_contains _ _ _ E) as Hc.
    destruct (before_after _ _ Hc) as [H1 H2].
    split; [exact H1|]. split; [exact H2|].
    rewrite parse_condition_first_operator, E.
    split; intros Hn.
    + now rewrite split_once.
    + now rewrite split_twice.
  - apply first_operator_none in E. destruct E as (E1 & E2 & E3).
    rewrite E1, E2, E3 in H. discriminate.
Qed.

Lemma parse_condition_selected_operator_witness :
  exists op_str op_func,
    first_operator "age > 30" = Some (op_str, op_func)
    /\ "age > 30"
       = (before op_str "age > 30" ++ String op_str (after op_str "age > 30"))%string
    /\ Str.contains op_str (before op_str "age > 30") = false
    /\ (Str.count op_str "age > 30" = 1%nat ->
        parse_condition "age > 30"
        = Ok (Str.strip (before op_str "age > 30"),
              Str.strip (after op_str "age > 30"), op_func))
    /\ ((2 <= Str.count op_str "age > 30")%nat ->
        parse_condition "age > 30" = Err too_many_values).
Proof.
  apply (parse_condition_selected_operator "age > 30"). reflexivity.
Defined.

(** C3 fails as stated: in ["a>1>2"] the selected operator [>] occurs
    twice.  A split at the first occurrence would give the column ["a"] and
    the value ["1>2"]; the parser raises instead. *)
Lemma parse_condition_repeated_operator :
  first_operator "a>1>2" = Some (">"%char, operator_gt)
  /\ Str.count ">" "a>1>2" = 2%nat
  /\ parse_condition_at_first_occurrence "a>1>2" = Ok ("a", "1>2", operator_gt)
  /\ parse_condition "a>1>2" = Err too_many_values
  /\ parse_condition "a>1>2" <> parse_condition_at_first_occurrence "a>1>2".
Proof.
  repeat split; discriminate.
Qed.

(** ** [filter_data] *)

Lemma filter_data_parse_error (data : list Row) (condition : string) (e : exn) :
  parse_condition condition = Err e -> filter_data data condition = Err e.
Proof.
  unfold filter_data. now intros ->.
Qed.

(** C4.  The condition parser raises the invalid-condition error exactly
    when none of [>], [<], [=] occurs in the condition.  Then [filter_data]
    raises it too and returns no rows, and a run of [main] with this
    condition ends with the error, nothing printed. *)
Theorem invalid_condition_iff_no_operator (condition : string) :
  (parse_condition condition = Err invalid_condition <-> no_operator condition)
  /\ (no_operator condition ->
      forall data, filter_data data condition = Err invalid_condition)
  /\ (no_operator condition -> condition <> EmptyString ->
      forall args rows, where_ args = Some condition ->
                        main args rows = ([], Err invalid_condition)).
Proof.
  split; [apply parse_condition_invalid|].
  split.
  - intros H data. apply filter_data_parse_error. now apply parse_condition_invalid.
  - intros H Hne args rows Hw.
    unfold main, main_filter. rewrite Hw.
    destruct condition as [|a condition]; [now elim Hne|]. simpl.
    rewrite (filter_data_parse_error rows _ invalid_condition); [reflexivity|].
    now apply parse_condition_invalid.
Qed.

Lemma invalid_condition_iff_no_operator_witness :
  main {| file := "people.csv"; where_ := Some "age 30"; aggregate := None |}
       [alice; bob]
  = ([], Err invalid_condition).
Proof.
  destruct (invalid_condition_iff_no_operator "age 30") as (_ & _ & H).
  apply H.
  - repeat split.
  - discriminate.
  - reflexivity.
Defined.

Lemma comprehension_if_total (p : Row -> result bool) (q : Row -> bool)
    (data : list Row) :
  (forall row, In row data -> p row = Ok (q row)) ->
  comprehension_if p data = Ok (filter q data).
Proof.
  induction data as [|row rest IH]; intros H; simpl; [reflexivity|].
  rewrite (H row (or_introl eq_refl)). simpl.
  rewrite IH by (intros r Hr; apply H; now right). simpl.
  now destruct (q row).
Qed.

Lemma filter_none {A : Type} (l : list A) : filter (fun _ => false) l = [].
Proof.
  induction l as [|a l IH]; simpl; [reflexivity | exact IH].
Qed.

Lemma cell_is_float_true (column : string) (row : Row) :
  cell_is_float column row = true ->
  exists cell y, getitem row column = Ok cell /\ Float.parse cell = Some y.
Proof.
  unfold cell_is_float.
  destruct (getitem row column) as [cell|]; [|discriminate].
  destruct (Float.parse cell) as [y|] eqn:Hy; [|discriminate].
  intros _. now exists cell, y.
Qed.

Lemma call_floats (op_func : operator) (y x : float) :
  call op_func (VFloat y) (VFloat x) = Ok (compare_floats op_func y x).
Proof.
  now destruct op_func.
Qed.

(** The numeric comparison of one row, when its cell is a number. *)
Lemma numeric_test_float_cell (op_func : operator) (column : string) (x : float)
    (row : Row) :
  cell_is_float column row = true ->
  (cell <- getitem row column ;;
   y <- float_of_str cell ;;
   call op_func (VFloat y) (VFloat x))
  = Ok (cell_satisfies op_func column x row).
Proof.
  intros H. destruct (cell_is_float_true _ _ H) as (cell & y & Hc & Hy).
  unfold cell_satisfies, float_of_str. rewrite Hc. simpl. rewrite Hy. simpl.
  apply call_floats.
Qed.

(** The first comprehension raises [ValueError] when every row has the
    column and some cell is not a number. *)
Lemma numeric_comprehension_raises (op_func : operator) (column : string)
    (x : float) (data : list Row) :
  (forall row, In row data -> exists cell, getitem row column = Ok cell) ->
  (exists row, In row data /\ cell_is_float column row = false) ->
  comprehension_if
    (fun row =>
       cell <- getitem row column ;;
       y <- float_of_str cell ;;
       call op_func (VFloat y) (VFloat x))
    data
  = Err (ValueError "could not convert string to float").
Proof.
  induction data as [|row rest IH]; intros Hall (bad & Hin & Hbad).
  - destruct Hin.
  - simpl. destruct (Hall row (or_introl eq_refl)) as (cell & Hc).
    rewrite Hc. simpl. unfold float_of_str at 1.
    destruct (Float.parse cell) as [y|] eqn:Hy; simpl; [|reflexivity].
    rewrite call_floats. simpl.
    rewrite IH; [reflexivity | intros r Hr; apply Hall; now right |].
    destruct Hin as [<-|Hin].
    + unfold cell_is_float in Hbad. rewrite Hc, Hy in Hbad. discriminate.
    + now exists bad.
Qed.

(** The comparison of string cells with a float value, over rows that all
    have the column. *)
Lemma filter_except_float_value (op_func : operator) (column : string)
    (x : float) (data : list Row) :
  data <> [] ->
  (forall row, In row data -> exists cell, getitem row column = Ok cell) ->
  filter_except data column (VFloat x) op_func = str_float_comparison op_func.
Proof.
  intros Hne Hall. unfold filter_except.
  destruct op_func.
  - destruct data as [|row rest]; [now elim Hne|]. simpl.
    destruct (Hall row (or_introl eq_refl)) as (cell & ->). reflexivity.
  - destruct data as [|row rest]; [now elim Hne|]. simpl.
    destruct (Hall row (or_introl eq_refl)) as (cell & ->). reflexivity.
  - rewrite (comprehension_if_total _ (fun _ => false)).
    + now rewrite filter_none.
    + intros row Hr. destruct (Hall row Hr) as (cell & ->). reflexivity.
Qed.

(** [filter_data] when the value is a number, every row has the column and
    some cell is not a number: the handler of the [try] statement takes
    over, with the value already converted. *)
Lemma filter_data_handler (data : list Row) (condition column value : string)
    (op_func : operator) (x : float) :
  parse_condition condition = Ok (column, value, op_func) ->
  Float.parse value = Some x ->
  (forall row, In row data -> exists cell, getitem row column = Ok cell) ->
  (exists row, In row data /\ cell_is_float column row = false) ->
  filter_data data condition = filter_except data column (VFloat x) op_func.
Proof.
  intros Hp Hv Hall Hbad.
  unfold filter_data, filter_try, float_of_str. rewrite Hp. simpl. rewrite Hv.
  now rewrite numeric_comprehension_raises.
Qed.

Lemma exists_in_not_nil {A : Type} (P : A -> Prop) (l : list A) :
  (exists a, In a l /\ P a) -> l <> [].
Proof.
  intros (a & Hin & _) ->. destruct Hin.
Qed.

(** C1, as amended.  When the comparison value is a number, every row has
    the column and the cell of some row is not a number, the conversion of
    that cell fails inside the [try] statement, whose handler, written for
    a value that is not a number, catches the failure: the body of the
    [try] ends with the [ValueError] of the conversion, and no [ValueError]
    leaves [filter_data]. *)
Theorem filter_data_cell_not_float (data : list Row)
    (condition column value : string) (op_func : operator) (x : float) :
  parse_condition condition = Ok (column, value, op_func) ->
  Float.parse value = Some x ->
  (forall row, In row data -> exists cell, getitem row column = Ok cell) ->
  (exists row, In row data /\ cell_is_float column row = false) ->
  snd (filter_try data column value op_func)
  = Err (ValueError "could not convert string to float")
  /\ (forall msg, filter_data data condition <> Err (ValueError msg)).
Proof.
  intros Hp Hv Hall Hbad. split.
  - unfold filter_try, float_of_str. rewrite Hv. simpl.
    now apply numeric_comprehension_raises.
  - rewrite (filter_data_handler _ _ _ _ _ _ Hp Hv Hall Hbad).
    rewrite filter_except_float_value;
      [|exact (exists_in_not_nil _ _ Hbad) | exact Hall].
    destruct op_func; discriminate.
Qed.

Lemma filter_data_cell_not_float_witness :
  snd (filter_try [alice; carol] "age" "40" operator_lt)
  = Err (ValueError "could not convert string to float")
  /\ (forall msg, filter_data [alice; carol] "age < 40" <> Err (ValueError msg)).
Proof.
  refine (filter_data_cell_not_float [alice; carol] "age < 40" "age" "40"
            operator_lt (Float.of_Z 40) eq_refl eq_refl _ _).
  - intros row [<-|[<-|[]]]; eexists; reflexivity.
  - exists carol. split; [right; left; reflexivity | reflexivity].
Defined.

(** C1 fails as stated: the value ["30"] is a number and the cell ["abc"] of
    the second row is not, yet [filter_data] with [=] raises nothing and
    returns the empty list. *)
Lemma filter_data_bad_cell_no_error :
  parse_condition "age=30" = Ok ("age", "30", operator_eq)
  /\ Float.parse "30" = Some (Float.of_Z 30)
  /\ getitem carol "age" = Ok "abc"
  /\ Float.parse "abc" = None
  /\ filter_data [alice; carol] "age=30" = Ok []
  /\ (forall e, filter_data [alice; carol] "age=30" <> Err e).
Proof.
  repeat split. discriminate.
Qed.

(** C2.  When the comparison value is the number [x] and the cell of every
    row in the column is a number, [filter_data] returns the rows whose cell
    compares with [x] as the operator says: the rows themselves, in the
    order of the input. *)
Theorem filter_data_numeric (data : list Row) (condition column value : string)
    (op_func : operator) (x : float) :
  parse_condition condition = Ok (column, value, op_func) ->
  Float.parse value = Some x ->
  (forall row, In row data -> cell_is_float column row = true) ->
  filter_data data condition
  = Ok (filter (cell_satisfies op_func column x) data).
Proof.
  intros Hp Hv Hall.
  unfold filter_data, filter_try, float_of_str. rewrite Hp. simpl. rewrite Hv.
  rewrite (comprehension_if_total _ (cell_satisfies op_func column x));
    [reflexivity|].
  intros row Hr. now apply numeric_test_float_cell, Hall.
Qed.

Lemma filter_data_numeric_witness :
  filter_data [alice; bob] "age>26" = Ok [alice].
Proof.
  refine (filter_data_numeric [alice; bob] "age>26" "age" "26" operator_gt
            (Float.of_Z 26) eq_refl eq_refl _).
  intros row [<-|[<-|[]]]; reflexivity.
Defined.

(** C9.  With the operator [=], a value that is a number, the column in
    every row and a cell that is not a number, [filter_data] raises nothing
    and returns the empty list: the handler compares each cell, a string,
    with the converted value, and a string never equals a float. *)
Theorem filter_data_eq_bad_cell (data : list Row)
    (condition column value : string) (x : float) :
  parse_condition condition = Ok (column, value, operator_eq) ->
  Float.parse value = Some x ->
  (forall row, In row data -> exists cell, getitem row column = Ok cell) ->
  (exists row, In row data /\ cell_is_float column row = false) ->
  filter_data data condition = Ok []
  /\ filter_try data column value operator_eq
     = (VFloat x, Err (ValueError "could not convert string to float"))
  /\ (forall row, In row data ->
      exists cell, getitem row column = Ok cell
                   /\ call operator_eq (VStr cell) (VFloat x) = Ok false).
Proof.
  intros Hp Hv Hall Hbad. split; [|split].
  - rewrite (filter_data_handler _ _ _ _ _ _ Hp Hv Hall Hbad).
    apply (filter_except_float_value operator_eq); [|exact Hall].
    exact (exists_in_not_nil _ _ Hbad).
  - unfold filter_try, float_of_str. rewrite Hv.
    now rewrite numeric_comprehension_raises.
  - intros row Hr. destruct (Hall row Hr) as (cell & Hc).
    exists cell. now split.
Qed.

Lemma filter_data_eq_bad_cell_witness :
  filter_data [alice; carol] "age = 30" = Ok [].
Proof.
  refine (proj1 (filter_data_eq_bad_cell [alice; carol] "age = 30" "age" "30"
                   (Float.of_Z 30) eq_refl eq_refl _ _)).
  - intros row [<-|[<-|[]]]; eexists; reflexivity.
  - exists carol. split; [right; left; reflexivity | reflexivity].
Defined.

(** ** The numeric columns *)

Lemma is_numeric_cell_present (key : string) (row : Row) :
  (exists cell, getitem row key = Ok cell) ->
  is_numeric_cell key row = Ok (cell_is_float key row).
Proof.
  intros (cell & Hc). unfold is_numeric_cell, cell_is_float, try_float, float_of_str.
  rewrite Hc. simpl. now destruct (Float.parse cell).
Qed.

Lemma all_rows_total (p : Row -> result bool) (q : Row -> bool)
    (data : list Row) :
  (forall row, In row data -> p row = Ok (q row)) ->
  all_rows p data = Ok (forallb q data).
Proof.
  induction data as [|row rest IH]; intros H; simpl; [reflexivity|].
  rewrite (H row (or_introl eq_refl)). simpl.
  destruct (q row); simpl; [|reflexivity].
  apply IH. intros r Hr. apply H. now right.
Qed.

Lemma numeric_columns_loop_total (ks : list string) (data : list Row)
    (acc : list string) :
  (forall row key, In row data -> In key ks ->
                   exists cell, getitem row key = Ok cell) ->
  numeric_columns_loop ks data acc
  = Ok (acc ++ filter (fun key => forallb (cell_is_float key) data) ks).
Proof.
  revert acc. induction ks as [|key rest IH]; intros acc H; simpl.
  - now rewrite app_nil_r.
  - rewrite (all_rows_total _ (cell_is_float key)).
    + simpl. rewrite IH by (intros row k Hr Hk; apply H; [exact Hr | now right]).
      destruct (forallb (cell_is_float key) data); [|reflexivity].
      now rewrite <- app_assoc.
    + intros row Hr. apply is_numeric_cell_present. apply H; [exact Hr | now left].
Qed.

Lemma parse_empty : Float.parse EmptyString = None.
Proof. reflexivity. Qed.

(** C6.  On a dataset that is not empty and whose rows all have the columns
    of the first row, the numeric columns are the keys of the first row, in
    their order, whose cell is a number in every row.  A column with one
    cell that is not a number is left out; the empty string is not a
    number. *)
Theorem numeric_columns_all_cells_float (row0 : Row) (rest : list Row) :
  (forall row key, In row (row0 :: rest) -> In key (keys row0) ->
                   exists cell, getitem row key = Ok cell) ->
  numeric_columns (row0 :: rest)
  = Ok (filter (fun key => forallb (cell_is_float key) (row0 :: rest))
          (keys row0))
  /\ (forall columns key,
      numeric_columns (row0 :: rest) = Ok columns ->
      (In key columns <->
       In key (keys row0)
       /\ forall row, In row (row0 :: rest) ->
            exists cell y, getitem row key = Ok cell
                           /\ Float.parse cell = Some y))
  /\ (forall columns key row,
      numeric_columns (row0 :: rest) = Ok columns ->
      In row (row0 :: rest) -> getitem row key = Ok EmptyString ->
      ~ In key columns).
Proof.
  intros H.
  assert (E : numeric_columns (row0 :: rest)
              = Ok (filter (fun key => forallb (cell_is_float key) (row0 :: rest))
                      (keys row0))).
  { unfold numeric_columns. simpl first_row. cbv beta iota delta [bind].
    now rewrite numeric_columns_loop_total. }
  assert (I : forall columns key,
      numeric_columns (row0 :: rest) = Ok columns ->
      (In key columns <->
       In key (keys row0)
       /\ forall row, In row (row0 :: rest) ->
            exists cell y, getitem row key = Ok cell
                           /\ Float.parse cell = Some y)).
  { intros columns key Hc. rewrite E in Hc.
    remember (row0 :: rest) as data eqn:Hd. clear Hd.
    injection Hc as <-.
    rewrite filter_In, forallb_forall.
    split; intros (Hk & Hrows); (split; [exact Hk|]); intros row Hr.
    - now apply cell_is_float_true, Hrows.
    - destruct (Hrows row Hr) as (cell & y & Hcell & Hy).
      unfold cell_is_float. now rewrite Hcell, Hy. }
  split; [exact E|]. split; [exact I|].
  intros columns key row Hc Hr Hempty Hin.
  apply (I columns key Hc) in Hin. destruct Hin as (_ & Hrows).
  destruct (Hrows row Hr) as (cell & y & Hcell & Hy).
  rewrite Hempty in Hcell. injection Hcell as <-.
  rewrite parse_empty in Hy. discriminate.
Qed.

Lemma numeric_columns_all_cells_float_witness :
  numeric_columns [alice; bob] = Ok ["age"]
  /\ numeric_columns [alice; carol] = Ok [].
Proof.
  split.
  - refine (proj1 (numeric_columns_all_cells_float alice [bob] _)).
    intros row key [<-|[<-|[]]] [<-|[<-|[]]]; eexists; reflexivity.
  - refine (proj1 (numeric_columns_all_cells_float alice [carol] _)).
    intros row key [<-|[<-|[]]] [<-|[<-|[]]]; eexists; reflexivity.
Defined.

(** ** The aggregator *)

(** The names of the reducers in the table. *)
Lemma registry_keys : keys Aggregator.functions = ["avg"; "min"; "max"].
Proof. reflexivity. Qed.

(** C7.  Through [Aggregator.apply], the average of the empty list is the
    integer [0] and the minimum of the empty list raises.  The average
    never raises, and the minimum raises on the empty list only.  In the
    table the two reducers have the names [avg] and [min]. *)
Theorem apply_empty_list :
  Aggregator.apply "avg" [] = Ok (NInt 0)
  /\ Aggregator.apply "min" []
     = Err (ValueError "min() arg is an empty sequence")
  /\ (forall values, exists r, Aggregator.apply "avg" values = Ok r)
  /\ (forall values,
      (exists e, Aggregator.apply "min" values = Err e) <-> values = []).
Proof.
  split; [reflexivity|]. split; [reflexivity|]. split.
  - intros [|x values]; eexists; reflexivity.
  - intros [|x values]; split.
    + reflexivity.
    + intros _. eexists. reflexivity.
    + intros (e & He). discriminate He.
    + discriminate.
Qed.

Lemma str_append_assoc (s1 s2 s3 : string) :
  ((s1 ++ s2) ++ s3 = s1 ++ (s2 ++ s3))%string.
Proof.
  induction s1 as [|a s1 IH]; simpl; [reflexivity | now rewrite IH].
Qed.

Lemma string_of_digit (k : Z) :
  0 <= k <= 9 ->
  exists d, string_of_Z k = String d EmptyString /\ Float.digit_val d <> None.
Proof.
  intros H.
  assert (C : k = 0 \/ k = 1 \/ k = 2 \/ k = 3 \/ k = 4 \/ k = 5 \/ k = 6
              \/ k = 7 \/ k = 8 \/ k = 9) by lia.
  repeat (destruct C as [->|C]); try subst k;
    eexists; (split; [reflexivity | discriminate]).
Qed.

Lemma format_2f_two_decimals (x : float) :
  is_finite x = true -> two_decimals (format_2f x).
Proof.
  destruct x as [s|s| |s m e]; try discriminate; intros _.
  - exists (if s then "-0" else "0"), "0"%char, "0"%char.
    destruct s; repeat split; discriminate.
  - unfold format_2f.
    set (n := if 0 <=? e then Z.pos m * 2 ^ e * 100
              else round_half_even (Z.pos m * 100) (2 ^ (- e))).
    destruct (string_of_digit (n mod 100 / 10)) as (d1 & E1 & H1).
    { pose proof (Z.mod_pos_bound n 100 eq_refl).
      split; [apply Z.div_pos; lia|].
      assert (n mod 100 / 10 < 10) by (apply Z.div_lt_upper_bound; lia). lia. }
    destruct (string_of_digit (n mod 10)) as (d2 & E2 & H2).
    { pose proof (Z.mod_pos_bound n 10 eq_refl). lia. }
    exists ((if s then "-" else EmptyString) ++ string_of_Z (n / 100))%string, d1, d2.
    rewrite E1, E2. repeat split; try assumption.
    now rewrite str_append_assoc.
Qed.

(** C8.  [Aggregator.all] returns one pair per reducer of the table, in
    the order of the table, [avg], [min], [max], each with the reducer's
    result as a string; the string of a finite result ends with a point and
    two decimal digits.  On the floats 1, 2 and 3 the average is ["2.00"],
    the minimum ["1.00"] and the maximum ["3.00"]. *)
Theorem all_one_two_three :
  (forall values a m M,
      Aggregator.apply "avg" values = Ok a ->
      Aggregator.apply "min" values = Ok m ->
      Aggregator.apply "max" values = Ok M ->
      Aggregator.all values
      = Ok [("avg", format_number a); ("min", format_number m);
            ("max", format_number M)])
  /\ (forall x, is_finite x = true -> two_decimals (format_number (NFloat x)))
  /\ Float.parse "1.0" = Some (Float.of_Z 1)
  /\ Float.parse "2.0" = Some (Float.of_Z 2)
  /\ Float.parse "3.0" = Some (Float.of_Z 3)
  /\ Aggregator.all [Float.of_Z 1; Float.of_Z 2; Float.of_Z 3]
     = Ok [("avg", "2.00"); ("min", "1.00"); ("max", "3.00")].
Proof.
  split.
  { intros values a m M. unfold Aggregator.apply, Aggregator.all. simpl.
    intros -> -> ->. reflexivity. }
  split; [exact format_2f_two_decimals|].
  repeat split.
Qed.

Lemma all_one_two_three_witness :
  Aggregator.all [Float.of_Z 30]
  = Ok [("avg", "30.00"); ("min", "30.00"); ("max", "30.00")].
Proof.
  exact (proj1 all_one_two_three [Float.of_Z 30]
           (NFloat (Float.of_Z 30)) (NFloat (Float.of_Z 30))
           (NFloat (Float.of_Z 30)) eq_refl eq_refl eq_refl).
Defined.

(** ** [main] *)

Lemma getitem_absent {V : Type} (row : list (string * V)) (key : string) :
  ~ In key (keys row) -> getitem row key = Err (KeyError key).
Proof.
  induction row as [|[k v] row IH]; simpl; intros H; [reflexivity|].
  destruct (String.eqb_spec k key) as [E|E].
  - elim H. now left.
  - apply IH. intros Hin. apply H. now right.
Qed.

Lemma column_values_absent (row : Row) (rest : list Row) (column : string) :
  ~ In column (keys row) ->
  column_values (row :: rest) column = Err (KeyError column).
Proof.
  intros H. simpl. now rewrite getitem_absent.
Qed.

(** A run that reaches the branch [if args.aggregate:]: the rows are
    printed first. *)
Lemma main_aggregate_branch (args : Args) (rows data : list Row) (arg : string) :
  main_filter args rows = Ok data ->
  data <> [] ->
  aggregate args = Some arg ->
  arg <> EmptyString ->
  main args rows
  = (print_rows data :: fst (main_aggregate data arg),
     snd (main_aggregate data arg)).
Proof.
  intros Hf Hd Ha Hne. unfold main. rewrite Hf, Ha.
  destruct data as [|row rest]; [now elim Hd|].
  destruct arg as [|a arg]; [now elim Hne|].
  simpl. now destruct (main_aggregate (row :: rest) (String a arg)).
Qed.

Lemma count_one_not_empty (c : ascii) (s : string) :
  (1 <= Str.count c s)%nat -> s <> EmptyString.
Proof.
  intros H ->. simpl in H. lia.
Qed.

(** [filter_data] on rows that do not have the column. *)
Lemma filter_data_absent_column (row : Row) (rest : list Row)
    (condition column value : string) (op_func : operator) :
  parse_condition condition = Ok (column, value, op_func) ->
  ~ In column (keys row) ->
  filter_data (row :: rest) condition = Err (KeyError column).
Proof.
  intros Hp Hk. unfold filter_data, filter_try, filter_except. rewrite Hp. simpl.
  destruct (float_of_str value) as [x|e] eqn:Hv.
  - simpl. now rewrite getitem_absent.
  - unfold float_of_str in Hv. destruct (Float.parse value); [discriminate|].
    injection Hv as <-. simpl. now rewrite getitem_absent.
Qed.

(** C5, as amended.  On the [--aggregate] path, an argument [column=func]
    whose column is in no row makes the run end with the lookup failure,
    after the rows were printed: the handler of that path catches the failed
    conversion of a cell only, and no message is printed for the missing
    column.  On the filtering path a missing column ends [filter_data] with
    the lookup failure as well. *)
Theorem missing_column_is_fatal :
  (forall args rows data arg,
      main_filter args rows = Ok data ->
      data <> [] ->
      aggregate args = Some arg ->
      Str.count "=" arg = 1%nat ->
      (forall row, In row data ->
                   ~ In (Str.strip (before "=" arg)) (keys row)) ->
      main args rows
      = ([print_rows data], Err (KeyError (Str.strip (before "=" arg)))))
  /\ (forall data condition column value op_func,
      parse_condition condition = Ok (column, value, op_func) ->
      data <> [] ->
      (forall row, In row data -> ~ In column (keys row)) ->
      filter_data data condition = Err (KeyError column)).
Proof.
  split.
  - intros args rows data arg Hf Hd Ha Hc Hk.
    rewrite (main_aggregate_branch args rows data arg Hf Hd Ha)
      by (apply (count_one_not_empty "="); lia).
    unfold main_aggregate.
    assert (Hin : Str.contains "=" arg = true)
      by (apply contains_count; lia).
    rewrite Hin, (split_once _ _ Hc). simpl.
    destruct data as [|row rest]; [now elim Hd|].
    rewrite column_values_absent by (apply Hk; now left).
    reflexivity.
  - intros data condition column value op_func Hp Hd Hk.
    destruct data as [|row rest]; [now elim Hd|].
    apply (filter_data_absent_column _ _ _ _ _ _ Hp).
    apply Hk. now left.
Qed.

Lemma missing_column_is_fatal_witness :
  main {| file := "people.csv"; where_ := None; aggregate := Some "salary=avg" |}
       [alice; bob]
  = ([print_rows [alice; bob]], Err (KeyError "salary"))
  /\ filter_data [alice; bob] "salary>10" = Err (KeyError "salary").
Proof.
  split.
  - refine (proj1 missing_column_is_fatal
              {| file := "people.csv"; where_ := None;
                 aggregate := Some "salary=avg" |}
              [alice; bob] [alice; bob] "salary=avg" eq_refl _ eq_refl eq_refl _).
    + discriminate.
    + intros row [<-|[<-|[]]]; simpl; intros [H|[H|[]]]; discriminate H.
  - refine (proj2 missing_column_is_fatal [alice; bob] "salary>10" "salary" "10"
              operator_gt eq_refl _ _).
    + discriminate.
    + intros row [<-|[<-|[]]]; simpl; intros [H|[H|[]]]; discriminate H.
Defined.

(** C5 fails as stated: the column [salary] is in no row, and the run with
    [--aggregate salary=avg] ends with the lookup failure; the message of
    the handler is not printed. *)
Lemma aggregate_missing_column_raises :
  main {| file := "people.csv"; where_ := None; aggregate := Some "salary=avg" |}
       [alice; bob]
  = ([print_rows [alice; bob]], Err (KeyError "salary")).
Proof.
  reflexivity.
Qed.

(** The branch [if args.aggregate:] prints the message for a malformed
    argument only when the argument has no [=]. *)
Lemma main_aggregate_with_equals (data : list Row) (arg : string) :
  Str.contains "=" arg = true ->
  ~ In invalid_aggregate (fst (main_aggregate data arg)).
Proof.
  intros Hc. unfold main_aggregate. rewrite Hc. simpl.
  destruct (unpack2 (Str.split "=" arg)) as [[column func]|e]; simpl;
    [|intros []].
  destruct (column_values data (Str.strip column)) as [values|[msg|key|msg|msg]];
    simpl; try (first [intros [H|[]]; discriminate H | intros []]).
  destruct (Str.strip func =? "all")%string.
  - destruct (Aggregator.all values) as [items|e]; simpl;
      [intros [H|[]]; discriminate H | intros []].
  - destruct (Aggregator.apply (Str.strip func) values) as [r|e]; simpl;
      [intros [H|[]]; discriminate H | intros []].
Qed.

(** C10.  In a run that reaches the branch of [--aggregate], an argument
    with two or more [=] ends the run with the unpacking error, after the
    rows were printed; the message for a malformed argument is printed
    exactly when the argument has no [=]. *)
Theorem aggregate_repeated_equals (args : Args) (rows data : list Row)
    (arg : string) :
  main_filter args rows = Ok data ->
  data <> [] ->
  aggregate args = Some arg ->
  arg <> EmptyString ->
  ((2 <= Str.count "=" arg)%nat ->
   main args rows = ([print_rows data], Err too_many_values))
  /\ (Str.contains "=" arg = false ->
      main args rows = ([print_rows data; invalid_aggregate], Ok tt))
  /\ (In invalid_aggregate (fst (main args rows)) <->
      Str.contains "=" arg = false).
Proof.
  intros Hf Hd Ha Hne.
  rewrite (main_aggregate_branch args rows data arg Hf Hd Ha Hne).
  split; [|split].
  - intros H. unfold main_aggregate.
    assert (Hin : Str.contains "=" arg = true) by (apply contains_count; lia).
    now rewrite Hin, (split_twice _ _ H).
  - intros H. unfold main_aggregate. now rewrite H.
  - split.
    + intros [H|H]; [discriminate H|].
      destruct (Str.contains "=" arg) eqn:E; [|reflexivity].
      now elim (main_aggregate_with_equals data arg E).
    + intros H. unfold main_aggregate. rewrite H. simpl. right. now left.
Qed.

Lemma aggregate_repeated_equals_witness :
  main {| file := "people.csv"; where_ := Some "age>26";
          aggregate := Some "age=avg=max" |}
       [alice; bob]
  = ([print_rows [alice]], Err too_many_values).
Proof.
  refine (proj1 (aggregate_repeated_equals
                   {| file := "people.csv"; where_ := Some "age>26";
                      aggregate := Some "age=avg=max" |}
                   [alice; bob] [alice] "age=avg=max" eq_refl _ eq_refl _) _).
  - discriminate.
  - discriminate.
  - simpl. lia.
Defined.

(** * Further properties *)

(** ** [filter_data]: the comparison of strings *)

Lemma call_strs (op_func : operator) (s t : string) :
  call op_func (VStr s) (VStr t) = Ok (compare_strs op_func s t).
Proof.
  now destruct op_func.
Qed.

Lemma filter_data_not_float (data : list Row) (condition column value : string)
    (op_func : operator) :
  parse_condition condition = Ok (column, value, op_func) ->
  Float.parse value = None ->
  filter_data data condition = filter_except data column (VStr value) op_func.
Proof.
  intros Hp Hv. unfold filter_data, filter_try, float_of_str.
  rewrite Hp. simpl. now rewrite Hv.
Qed.

(** When the comparison value is not a number and every row has the column,
    [filter_data] returns the rows whose cell compares with the value as
    strings, in the order of the input. *)
Theorem filter_data_string_value (data : list Row)
    (condition column value : string) (op_func : operator) :
  parse_condition condition = Ok (column, value, op_func) ->
  Float.parse value = None ->
  (forall row, In row data -> exists cell, getitem row column = Ok cell) ->
  filter_data data condition
  = Ok (filter (cell_satisfies_str op_func column value) data).
Proof.
  intros Hp Hv Hall.
  rewrite (filter_data_not_float _ _ _ _ _ Hp Hv). unfold filter_except.
  apply comprehension_if_total.
  intros row Hr. destruct (Hall row Hr) as (cell & Hc).
  unfold cell_satisfies_str. rewrite Hc. simpl. apply call_strs.
Qed.

Lemma filter_data_string_value_witness :
  filter_data [alice; bob; carol] "name > Alice" = Ok [bob; carol].
Proof.
  refine (filter_data_string_value [alice; bob; carol] "name > Alice" "name"
            "Alice" operator_gt eq_refl eq_refl _).
  intros row [<-|[<-|[<-|[]]]]; eexists; reflexivity.
Defined.

(** ** [filter_data]: what it returns and what it raises *)

Lemma comprehension_if_filter (p : Row -> result bool) (data rows : list Row) :
  comprehension_if p data = Ok rows ->
  rows = filter (fun row => match p row with Ok b => b | Err _ => false end) data
  /\ (forall row, In row data -> exists b, p row = Ok b).
Proof.
  revert rows. induction data as [|row rest IH]; simpl; intros rows H.
  - injection H as <-. split; [reflexivity | intros row []].
  - destruct (p row) as [b|e] eqn:Hb; simpl in H; [|discriminate].
    destruct (comprehension_if p rest) as [rows'|e] eqn:Hr; simpl in H;
      [|discriminate].
    injection H as <-. destruct (IH rows' eq_refl) as [-> Hall].
    split; [now destruct b|].
    intros r [<-|Hin]; [now exists b | now apply Hall].
Qed.

Lemma comprehension_if_raises (p : Row -> result bool) (data : list Row)
    (e : exn) :
  comprehension_if p data = Err e ->
  exists row, In row data /\ p row = Err e.
Proof.
  induction data as [|row rest IH]; simpl; [discriminate|].
  destruct (p row) as [b|e'] eqn:Hb; simpl.
  - destruct (comprehension_if p rest) as [rows|e'] eqn:Hr; simpl;
      [discriminate|].
    intros H. injection H as ->.
    destruct (IH eq_refl) as (r & Hin & Hp). exists r. split; [now right | exact Hp].
  - intros H. injection H as ->. exists row. split; [now left | exact Hb].
Qed.

Lemma filter_data_unfold (data : list Row) (condition column value : string)
    (op_func : operator) :
  parse_condition condition = Ok (column, value, op_func) ->
  filter_data data condition
  = match Float.parse value with
    | Some x =>
        match comprehension_if (numeric_test op_func column x) data with
        | Err (ValueError _) =>
            comprehension_if (string_test op_func column (VFloat x)) data
        | r => r
        end
    | None => comprehension_if (string_test op_func column (VStr value)) data
    end.
Proof.
  intros Hp. unfold filter_data, filter_try, filter_except.
  unfold numeric_test, string_test. rewrite Hp. simpl.
  destruct (float_of_str value) as [x|e] eqn:Hv; unfold float_of_str in Hv;
    destruct (Float.parse value) as [y|]; try discriminate Hv.
  - injection Hv as ->.
    now destruct (comprehension_if _ data) as [rows|[msg|key|msg|msg]].
  - now injection Hv as <-.
Qed.

Lemma getitem_raises {V : Type} (row : list (string * V)) (key : string)
    (e : exn) :
  getitem row key = Err e -> e = KeyError key.
Proof.
  induction row as [|[k v] row IH]; simpl.
  - intros H. now injection H as <-.
  - destruct (k =? key)%string; [discriminate | exact IH].
Qed.

Lemma float_of_str_raises (s : string) (e : exn) :
  float_of_str s = Err e -> e = not_a_float.
Proof.
  unfold float_of_str. destruct (Float.parse s); [discriminate|].
  intros H. now injection H as <-.
Qed.

Lemma numeric_test_raises (op_func : operator) (column : string) (x : float)
    (row : Row) (e : exn) :
  numeric_test op_func column x row = Err e ->
  e = KeyError column \/ e = not_a_float.
Proof.
  unfold numeric_test.
  destruct (getitem row column) as [cell|e'] eqn:Hc; simpl.
  - destruct (float_of_str cell) as [y|e'] eqn:Hy; simpl.
    + rewrite call_floats. discriminate.
    + intros H. injection H as <-. right. now apply (float_of_str_raises cell).
  - intros H. injection H as <-. left. now apply (getitem_raises row).
Qed.

Lemma string_test_raises (op_func : operator) (column : string) (v : pyval)
    (row : Row) (e : exn) :
  string_test op_func column v row = Err e ->
  e = KeyError column
  \/ ((exists x, v = VFloat x) /\ Err e = str_float_comparison op_func).
Proof.
  unfold string_test.
  destruct (getitem row column) as [cell|e'] eqn:Hc; simpl.
  - destruct v as [t|x].
    + rewrite call_strs. discriminate.
    + intros H. right. split; [now exists x|].
      destruct op_func; simpl in *; try discriminate H;
        now injection H as <-.
  - intros H. injection H as <-. left. now apply (getitem_raises row).
Qed.

Lemma string_test_float_not_true (op_func : operator) (column : string)
    (x : float) (row : Row) :
  string_test op_func column (VFloat x) row <> Ok true.
Proof.
  unfold string_test. destruct (getitem row column); simpl; [|discriminate].
  destruct op_func; discriminate.
Qed.

Lemma comprehension_if_never (p : Row -> result bool) (data rows : list Row) :
  (forall row, p row <> Ok true) ->
  comprehension_if p data = Ok rows -> rows = [].
Proof.
  intros Hn H. destruct (comprehension_if_filter _ _ _ H) as [-> _].
  clear H. induction data as [|row rest IH]; simpl; [reflexivity|].
  destruct (p row) as [[|]|e] eqn:Hb; [now elim (Hn row) | exact IH | exact IH].
Qed.

Lemma filter_all {A : Type} (l : list A) : filter (fun _ => true) l = l.
Proof.
  induction l as [|a l IH]; simpl; [reflexivity | now rewrite IH].
Qed.

Lemma comprehension_if_again (p : Row -> result bool) (data rows : list Row) :
  comprehension_if p data = Ok rows -> comprehension_if p rows = Ok rows.
Proof.
  intros H. destruct (comprehension_if_filter _ _ _ H) as [E _].
  rewrite (comprehension_if_total p (fun _ => true)); [now rewrite filter_all|].
  intros row Hr. rewrite E in Hr. apply filter_In in Hr. destruct Hr as [_ Hr].
  destruct (p row) as [[|]|e]; [reflexivity | discriminate | discriminate].
Qed.

(** The rows that [filter_data] returns are rows of the input, in the order
    of the input: the result is the input with some rows left out, and
    whether a row is left out depends on the row alone. *)
Theorem filter_data_subsequence (data rows : list Row) (condition : string) :
  filter_data data condition = Ok rows ->
  (exists keep : Row -> bool, rows = filter keep data)
  /\ (forall row, In row rows -> In row data)
  /\ (List.length rows <= List.length data)%nat.
Proof.
  intros H.
  assert (E : exists keep : Row -> bool, rows = filter keep data).
  { destruct (parse_condition condition) as [[[column value] op_func]|e] eqn:Hp.
    - rewrite (filter_data_unfold _ _ _ _ _ Hp) in H.
      destruct (Float.parse value) as [x|].
      + destruct (comprehension_if (numeric_test op_func column x) data)
          as [rows'|[msg|key|msg|msg]] eqn:Hb; try discriminate H.
        * rewrite H in Hb.
          destruct (comprehension_if_filter _ _ _ Hb) as [E _]. eauto.
        * destruct (comprehension_if_filter _ _ _ H) as [E _]. eauto.
      + destruct (comprehension_if_filter _ _ _ H) as [E _]. eauto.
    - rewrite (filter_data_parse_error _ _ _ Hp) in H. discriminate. }
  split; [exact E|]. destruct E as (keep & ->).
  split.
  - intros row Hr. now apply filter_In in Hr.
  - apply filter_length_le.
Qed.

Lemma filter_data_subsequence_witness :
  (exists keep : Row -> bool, [alice] = filter keep [alice; bob])
  /\ (forall row, In row [alice] -> In row [alice; bob])
  /\ (List.length [alice] <= List.length [alice; bob])%nat.
Proof.
  apply (filter_data_subsequence [alice; bob] [alice] "age>26"). reflexivity.
Defined.

(** Filtering the rows that [filter_data] returned, with the same
    condition, returns them again. *)
Theorem filter_data_twice (data rows : list Row) (condition : string) :
  filter_data data condition = Ok rows ->
  filter_data rows condition = Ok rows.
Proof.
  intros H.
  destruct (parse_condition condition) as [[[column value] op_func]|e] eqn:Hp.
  - rewrite (filter_data_unfold data _ _ _ _ Hp) in H.
    rewrite (filter_data_unfold rows _ _ _ _ Hp).
    destruct (Float.parse value) as [x|].
    + destruct (comprehension_if (numeric_test op_func column x) data)
        as [rows'|[msg|key|msg|msg]] eqn:Hb; try discriminate H.
      * rewrite H in Hb. now rewrite (comprehension_if_again _ _ _ Hb).
      * apply comprehension_if_never in H;
          [|intros row; apply string_test_float_not_true].
        now subst rows.
    + exact (comprehension_if_again _ _ _ H).
  - rewrite (filter_data_parse_error _ _ _ Hp) in H. discriminate.
Qed.

Lemma filter_data_twice_witness :
  filter_data [alice] "age>26" = Ok [alice].
Proof.
  apply (filter_data_twice [alice; bob]). reflexivity.
Defined.

Lemma filter_data_raises_cases (data : list Row)
    (condition column value : string) (op_func : operator) (e : exn) :
  parse_condition condition = Ok (column, value, op_func) ->
  filter_data data condition = Err e ->
  e = KeyError column
  \/ (Float.parse value <> None /\ Err e = str_float_comparison op_func).
Proof.
  intros Hp H.
  rewrite (filter_data_unfold _ _ _ _ _ Hp) in H.
  destruct (Float.parse value) as [x|] eqn:Hv.
  - destruct (comprehension_if (numeric_test op_func column x) data)
      as [rows'|e0] eqn:Hb.
    + discriminate H.
    + destruct (comprehension_if_raises _ _ _ Hb) as (r & _ & Hr).
      apply numeric_test_raises in Hr. destruct Hr as [->| ->].
      * left. now injection H as <-.
      * unfold not_a_float in H.
        destruct (comprehension_if_raises _ _ _ H) as (r' & _ & Hr').
        apply string_test_raises in Hr'. destruct Hr' as [Hk|[_ Ht]];
          [now left | right; split; [discriminate | exact Ht]].
  - destruct (comprehension_if_raises _ _ _ H) as (r & _ & Hr).
    apply string_test_raises in Hr. destruct Hr as [Hk|[(x & Hx) _]];
      [now left | discriminate Hx].
Qed.

(** Once the condition is parsed, [filter_data] raises nothing but a lookup
    failure for the column, or, for [>] and [<] with a value that is a
    number, the type error of comparing a string with a float.  It never
    raises a [ValueError]; with [=] it raises only for a missing column. *)
Theorem filter_data_raises (data : list Row) (condition column value : string)
    (op_func : operator) (e : exn) :
  parse_condition condition = Ok (column, value, op_func) ->
  filter_data data condition = Err e ->
  (e = KeyError column
   \/ (Float.parse value <> None /\ Err e = str_float_comparison op_func))
  /\ (forall msg, e <> ValueError msg)
  /\ (op_func = operator_eq -> e = KeyError column).
Proof.
  intros Hp H.
  pose proof (filter_data_raises_cases _ _ _ _ _ _ Hp H) as C.
  split; [exact C|]. split.
  - intros msg ->. destruct C as [C|[_ C]]; [discriminate C|].
    destruct op_func; discriminate C.
  - intros ->. destruct C as [C|[_ C]]; [exact C | discriminate C].
Qed.

Lemma filter_data_raises_witness :
  (KeyError "salary" = KeyError "salary"
   \/ (Float.parse "10" <> None
       /\ Err (KeyError "salary") = str_float_comparison operator_eq))
  /\ (forall msg, KeyError "salary" <> ValueError msg)
  /\ (operator_eq = operator_eq -> KeyError "salary" = KeyError "salary").
Proof.
  apply (filter_data_raises [alice; bob] "salary = 10" "salary" "10");
    reflexivity.
Defined.

(** On an empty list of rows [filter_data] raises only what the parsing of
    the condition raises; a condition that parses gives the empty list,
    whatever column it names. *)
Theorem filter_data_no_rows (condition : string) :
  filter_data [] condition
  = match parse_condition condition with
    | Ok _ => Ok []
    | Err e => Err e
    end.
Proof.
  destruct (parse_condition condition) as [[[column value] op_func]|e] eqn:Hp.
  - rewrite (filter_data_unfold _ _ _ _ _ Hp).
    now destruct (Float.parse value).
  - now apply filter_data_parse_error.
Qed.

(** ** Conditions with [>=] and [<=] *)

Lemma count_app (c : ascii) (s t : string) :
  Str.count c (s ++ t) = (Str.count c s + Str.count c t)%nat.
Proof.
  induction s as [|a s IH]; simpl; [reflexivity|].
  destruct (Ascii.eqb a c); simpl; now rewrite IH.
Qed.

Lemma before_app (c : ascii) (s t : string) :
  Str.contains c s = false ->
  before c (s ++ String c t) = s /\ after c (s ++ String c t) = t.
Proof.
  induction s as [|a s IH]; simpl.
  - intros _. now rewrite Ascii.eqb_refl.
  - destruct (Ascii.eqb a c); simpl; [discriminate|].
    intros H. destruct (IH H) as [-> ->]. now split.
Qed.

Lemma count_cut (c : ascii) (s t : string) :
  Str.contains c s = false -> Str.contains c t = false ->
  Str.count c (s ++ String c t) = 1%nat.
Proof.
  intros Hs Ht. apply contains_false_count in Hs, Ht.
  rewrite count_app. simpl. rewrite Ascii.eqb_refl. lia.
Qed.

Lemma contains_cut (c d : ascii) (s t : string) :
  Str.contains c (s ++ String d t)
  = Str.contains c s || (Ascii.eqb d c || Str.contains c t).
Proof.
  induction s as [|a s IH]; simpl; [reflexivity|].
  rewrite IH. now destruct (Ascii.eqb a c).
Qed.

(** A condition in which the selected operator occurs once. *)
Lemma parse_condition_cut (c : ascii) (op_func : operator) (s t : string) :
  first_operator (s ++ String c t) = Some (c, op_func) ->
  Str.contains c s = false -> Str.contains c t = false ->
  parse_condition (s ++ String c t) = Ok (Str.strip s, Str.strip t, op_func).
Proof.
  intros Hf Hs Ht.
  rewrite parse_condition_first_operator, Hf.
  rewrite (split_once _ _ (count_cut _ _ _ Hs Ht)).
  destruct (before_app c s t Hs) as [-> ->]. reflexivity.
Qed.

Lemma rstrip_not_space (a : ascii) (s : string) :
  Str.is_space a = false -> Str.rstrip (String a s) = String a (Str.rstrip s).
Proof.
  intros H. simpl. rewrite H. now destruct (Str.rstrip s).
Qed.

Lemma drop_blank_not_blank (a : ascii) (s : string) :
  Float.is_blank a = false ->
  Float.drop_blank (String a s) = String a (Float.drop_blank s).
Proof.
  intros H. simpl. rewrite H. now destruct (Float.drop_blank s).
Qed.

(** A string that begins with [=] is not a number. *)
Lemma parse_equals_sign (s : string) : Float.parse (String "=" s) = None.
Proof.
  unfold Float.parse, Float.trim.
  change (Float.skip_blank (String "=" s)) with (String "="%char s).
  rewrite drop_blank_not_blank by reflexivity.
  reflexivity.
Qed.

(** The parser has no token [>=]: in [column>=value] it selects [>], and
    the value is [=value], which is not a number.  Over rows that have the
    column, [filter_data] then keeps the rows whose cell is greater, as a
    string, than the value with its [=] sign.  The same holds for [<=]. *)
Theorem filter_data_or_equal (data : list Row) (column value : string) :
  Str.contains ">" column = false ->
  Str.contains ">" value = false ->
  (forall row, In row data ->
               exists cell, getitem row (Str.strip column) = Ok cell) ->
  (parse_condition (column ++ ">=" ++ value)
   = Ok (Str.strip column, Str.strip ("=" ++ value), operator_gt)
   /\ Float.parse (Str.strip ("=" ++ value)) = None
   /\ filter_data data (column ++ ">=" ++ value)
      = Ok (filter (cell_satisfies_str operator_gt (Str.strip column)
                      (Str.strip ("=" ++ value)))
              data))
  /\ (Str.contains "<" column = false ->
      Str.contains "<" value = false ->
      parse_condition (column ++ "<=" ++ value)
      = Ok (Str.strip column, Str.strip ("=" ++ value), operator_lt)
      /\ filter_data data (column ++ "<=" ++ value)
         = Ok (filter (cell_satisfies_str operator_lt (Str.strip column)
                         (Str.strip ("=" ++ value)))
                 data)).
Proof.
  intros Hc Hv Hall.
  assert (Hn : Float.parse (Str.strip ("=" ++ value)) = None).
  { unfold Str.strip.
    change (Str.lstrip ("=" ++ value)) with (String "="%char value).
    rewrite rstrip_not_space by reflexivity. apply parse_equals_sign. }
  assert (Hgt : parse_condition (column ++ ">=" ++ value)
                = Ok (Str.strip column, Str.strip ("=" ++ value), operator_gt)).
  { apply (parse_condition_cut ">" operator_gt column ("=" ++ value)).
    - unfold first_operator.
      change (column ++ String ">" ("=" ++ value))%string
        with (column ++ String ">" (String "=" value))%string.
      rewrite contains_cut. simpl. now rewrite orb_true_r.
    - exact Hc.
    - exact Hv. }
  split.
  - split; [exact Hgt|]. split; [exact Hn|].
    rewrite (filter_data_not_float _ _ _ _ _ Hgt Hn). unfold filter_except.
    apply comprehension_if_total.
    intros row Hr. destruct (Hall row Hr) as (cell & Hcell).
    unfold cell_satisfies_str. rewrite Hcell. reflexivity.
  - intros Hc' Hv'.
    assert (Hlt : parse_condition (column ++ "<=" ++ value)
                  = Ok (Str.strip column, Str.strip ("=" ++ value), operator_lt)).
    { apply (parse_condition_cut "<" operator_lt column ("=" ++ value)).
      - unfold first_operator.
        change (column ++ String "<" ("=" ++ value))%string
          with (column ++ String "<" (String "=" value))%string.
        rewrite !contains_cut. simpl. rewrite Hc, Hv. simpl.
        now rewrite orb_true_r.
      - exact Hc'.
      - exact Hv'. }
    split; [exact Hlt|].
    rewrite (filter_data_not_float _ _ _ _ _ Hlt Hn). unfold filter_except.
    apply comprehension_if_total.
    intros row Hr. destruct (Hall row Hr) as (cell & Hcell).
    unfold cell_satisfies_str. rewrite Hcell. reflexivity.
Qed.

Lemma filter_data_or_equal_witness :
  filter_data [alice; bob] "age>=30" = Ok []
  /\ filter_data [alice; bob] "age<=30" = Ok [alice; bob].
Proof.
  assert (H : forall row, In row [alice; bob] ->
                exists cell, getitem row (Str.strip "age") = Ok cell)
    by (intros row [<-|[<-|[]]]; eexists; reflexivity).
  destruct (filter_data_or_equal [alice; bob] "age" "30" eq_refl eq_refl H)
    as ((_ & _ & Hgt) & Hlt).
  split; [exact Hgt|].
  exact (proj2 (Hlt eq_refl eq_refl)).
Defined.

(** ** The reducers *)

Lemma ltb_irrefl (x : float) : Float.ltb x x = false.
Proof.
  unfold Float.ltb, SFltb, SFcompare.
  destruct x as [s|s| |s m e]; try (destruct s); try reflexivity;
    rewrite Z.compare_refl;
    change (Pos.compare_cont Eq m m) with (Pos.compare m m);
    now rewrite Pos.compare_refl.
Qed.

Ltac compare_cases :=
  repeat match goal with
    | |- context [Z.compare ?a ?b] => destruct (Z.compare_spec a b)
    | |- context [Pos.compare ?a ?b] => destruct (Pos.compare_spec a b)
    end.

Lemma ltb_trans (x y z : float) :
  Float.ltb x y = true -> Float.ltb y z = true -> Float.ltb x z = true.
Proof.
  unfold Float.ltb, SFltb, SFcompare.
  destruct x as [sx|sx| |sx mx ex], y as [sy|sy| |sy my ey],
    z as [sz|sz| |sz mz ez];
    try (destruct sx); try (destruct sy); try (destruct sz);
    try reflexivity; try discriminate;
    change (Pos.compare_cont Eq) with Pos.compare;
    compare_cases; simpl; try reflexivity; try discriminate;
    intros _ _; subst; lia.
Qed.

(** The loop of the builtin [min] and [max], for a comparison [lt] that is
    a strict order: no item seen is before the result, and the result is an
    item seen. *)
Lemma best_of_fold (lt : float -> float -> bool) (rest : list float)
    (first : float) :
  (forall x, lt x x = false) ->
  (forall x y z, lt x y = true -> lt y z = true -> lt x z = true) ->
  let best := fold_left (fun best item => if lt item best then item else best)
                rest first in
  In best (first :: rest)
  /\ forall v, In v (first :: rest) -> lt v best = false.
Proof.
  intros Hirr Htrans.
  assert (G : forall seen b,
             In b seen -> (forall v, In v seen -> lt v b = false) ->
             let best := fold_left
                           (fun best item => if lt item best then item else best)
                           rest b in
             In best (seen ++ rest)
             /\ forall v, In v (seen ++ rest) -> lt v best = false).
  { induction rest as [|item rest IH]; intros seen b Hb Hlow; simpl.
    - rewrite app_nil_r. now split.
    - replace (seen ++ item :: rest) with ((seen ++ [item]) ++ rest)
        by (now rewrite <- app_assoc).
      apply IH.
      + destruct (lt item b); apply in_or_app; [right; now left | now left].
      + intros v Hv. apply in_app_or in Hv.
        destruct (lt item b) eqn:Hlt.
        * destruct Hv as [Hv|[<-|[]]]; [|apply Hirr].
          destruct (lt v item) eqn:Hv'; [|reflexivity].
          rewrite <- (Hlow v Hv). symmetry. now apply (Htrans v item b).
        * destruct Hv as [Hv|[<-|[]]]; [now apply Hlow | exact Hlt]. }
  apply (G [first] first); [now left|].
  intros v [<-|[]]. apply Hirr.
Qed.

(** [min] returns a value of the list that no value of the list is less
    than, and [max] one that no value is greater than; they raise on the
    empty list only. *)
Theorem min_max_bounds (values : list float) :
  values <> [] ->
  (exists m, Aggregator.apply "min" values = Ok (NFloat m)
             /\ In m values
             /\ forall v, In v values -> Float.ltb v m = false)
  /\ (exists M, Aggregator.apply "max" values = Ok (NFloat M)
                /\ In M values
                /\ forall v, In v values -> Float.gtb v M = false).
Proof.
  destruct values as [|first rest]; [intros H; now elim H | intros _].
  split.
  - destruct (best_of_fold Float.ltb rest first ltb_irrefl ltb_trans)
      as [Hin Hlow].
    eexists. split; [reflexivity|]. now split.
  - destruct (best_of_fold Float.gtb rest first) as [Hin Hlow].
    + intros x. apply ltb_irrefl.
    + intros x y z Hxy Hyz. unfold Float.gtb in *.
      exact (ltb_trans z y x Hyz Hxy).
    + eexists. split; [reflexivity|]. now split.
Qed.

Lemma min_max_bounds_witness :
  (exists m, Aggregator.apply "min" [Float.of_Z 3; Float.of_Z 1; Float.of_Z 2]
             = Ok (NFloat m)
             /\ In m [Float.of_Z 3; Float.of_Z 1; Float.of_Z 2]
             /\ forall v, In v [Float.of_Z 3; Float.of_Z 1; Float.of_Z 2] ->
                          Float.ltb v m = false)
  /\ (exists M, Aggregator.apply "max" [Float.of_Z 3; Float.of_Z 1; Float.of_Z 2]
                = Ok (NFloat M)
                /\ In M [Float.of_Z 3; Float.of_Z 1; Float.of_Z 2]
                /\ forall v, In v [Float.of_Z 3; Float.of_Z 1; Float.of_Z 2] ->
                             Float.gtb v M = false).
Proof.
  apply (min_max_bounds [Float.of_Z 3; Float.of_Z 1; Float.of_Z 2]).
  discriminate.
Defined.

Lemma registered_names (func : string) :
  Aggregator.has_key func = true <-> In func ["avg"; "min"; "max"].
Proof.
  unfold Aggregator.has_key. simpl.
  destruct (String.eqb_spec func "avg") as [->|H1]; [now split; auto|].
  destruct (String.eqb_spec func "min") as [->|H2]; [now split; auto|].
  destruct (String.eqb_spec func "max") as [->|H3]; [now split; auto|].
  simpl. split; [discriminate|].
  intros [H|[H|[H|[]]]]; congruence.
Qed.

(** On a list that is not empty, [Aggregator.apply] returns a float for
    the names [avg], [min] and [max], and raises the unsupported-function
    error, with the name in its message, for every other name. *)
Theorem apply_registered (func : string) (values : list float) :
  values <> [] ->
  (In func ["avg"; "min"; "max"] ->
   exists x, Aggregator.apply func values = Ok (NFloat x))
  /\ (~ In func ["avg"; "min"; "max"] ->
      Aggregator.apply func values
      = Err (ValueError ("Unsupported aggregate function: " ++ func)%string))
  /\ (Aggregator.apply func values
      = Err (ValueError ("Unsupported aggregate function: " ++ func)%string)
      -> ~ In func ["avg"; "min"; "max"]).
Proof.
  destruct values as [|first rest]; [intros H; now elim H | intros _].
  split; [|split].
  - intros [<-|[<-|[<-|[]]]]; eexists; reflexivity.
  - intros H. unfold Aggregator.apply.
    destruct (Aggregator.has_key func) eqn:E; [|reflexivity].
    apply registered_names in E. now elim H.
  - intros H [<-|[<-|[<-|[]]]]; discriminate H.
Qed.

Lemma apply_registered_witness :
  Aggregator.apply "median" [Float.of_Z 1; Float.of_Z 2]
  = Err (ValueError "Unsupported aggregate function: median").
Proof.
  refine (proj1 (proj2 (apply_registered "median" [Float.of_Z 1; Float.of_Z 2] _))
            _).
  - discriminate.
  - intros [H|[H|[H|[]]]]; discriminate H.
Defined.

(** [Aggregator.all] raises exactly on the empty list, where the average is
    computed and the minimum raises; otherwise it returns the three pairs
    [avg], [min], [max], each with the formatted result of
    [Aggregator.apply] for that name. *)
Theorem all_raises_on_empty (values : list float) :
  (Aggregator.all values = Err (ValueError "min() arg is an empty sequence")
   <-> values = [])
  /\ (values <> [] ->
      exists a m M,
        Aggregator.apply "avg" values = Ok a
        /\ Aggregator.apply "min" values = Ok m
        /\ Aggregator.apply "max" values = Ok M
        /\ Aggregator.all values
           = Ok [("avg", format_number a); ("min", format_number m);
                 ("max", format_number M)]).
Proof.
  destruct values as [|first rest]; split.
  - split; reflexivity.
  - intros H. now elim H.
  - split; discriminate.
  - intros _. do 3 eexists. repeat split.
Qed.

Lemma all_raises_on_empty_witness :
  exists a m M,
    Aggregator.apply "avg" [Float.of_Z 4] = Ok a
    /\ Aggregator.apply "min" [Float.of_Z 4] = Ok m
    /\ Aggregator.apply "max" [Float.of_Z 4] = Ok M
    /\ Aggregator.all [Float.of_Z 4]
       = Ok [("avg", format_number a); ("min", format_number m);
             ("max", format_number M)].
Proof.
  apply (proj2 (all_raises_on_empty [Float.of_Z 4])). discriminate.
Defined.

(** ** [main]: the branch of [--aggregate] *)

Lemma column_values_numeric (data : list Row) (column : string) :
  (forall row, In row data -> cell_is_float column row = true) ->
  column_values data column = Ok (map (float_cell column) data).
Proof.
  induction data as [|row rest IH]; intros H; simpl; [reflexivity|].
  destruct (cell_is_float_true _ _ (H row (or_introl eq_refl)))
    as (cell & x & Hc & Hx).
  unfold float_cell at 1, float_of_str. rewrite Hc. simpl. rewrite Hx. simpl.
  rewrite IH by (intros r Hr; apply H; now right). reflexivity.
Qed.

Lemma column_values_not_numeric (data : list Row) (column : string) :
  (forall row, In row data -> exists cell, getitem row column = Ok cell) ->
  (exists row, In row data /\ cell_is_float column row = false) ->
  column_values data column = Err not_a_float.
Proof.
  induction data as [|row rest IH]; intros Hall (bad & Hin & Hbad).
  - destruct Hin.
  - simpl. destruct (Hall row (or_introl eq_refl)) as (cell & Hc).
    rewrite Hc. simpl. unfold float_of_str at 1.
    destruct (Float.parse cell) as [x|] eqn:Hx; simpl; [|reflexivity].
    rewrite IH; [reflexivity | intros r Hr; apply Hall; now right |].
    destruct Hin as [<-|Hin].
    + unfold cell_is_float in Hbad. rewrite Hc, Hx in Hbad. discriminate.
    + now exists bad.
Qed.

Lemma io_pair {A : Type} (m : io A) : (let '(out, r) := m in (out, r)) = m.
Proof.
  now destruct m.
Qed.

(** The branch, for an argument with one [=], once the column is read. *)
Lemma main_aggregate_column (data : list Row) (arg : string) :
  Str.count "=" arg = 1%nat ->
  main_aggregate data arg
  = let column := Str.strip (before "=" arg) in
    let func := Str.strip (after "=" arg) in
    match column_values data column with
    | Err (ValueError _) => print not_numeric
    | Err e => lift (Err e)
    | Ok values =>
        if (func =? "all")%string then
          result <-- lift (Aggregator.all values) ;;
          print (print_table (map (fun '(f, v) => [f; column; v]) result)
                   table_headers)
        else
          result <-- lift (Aggregator.apply func values) ;;
          print (print_table [[format_number result]] [func])
    end.
Proof.
  intros H. unfold main_aggregate.
  assert (Hin : Str.contains "=" arg = true) by (apply contains_count; lia).
  rewrite Hin, (split_once _ _ H). simpl. apply io_pair.
Qed.

(** With [--aggregate column=func] on a column that every row has and in
    which some cell is not a number, the run prints the rows and the
    message that only numeric columns can be aggregated, and ends without
    an error, whatever [func] is. *)
Theorem main_aggregate_not_numeric (args : Args) (rows data : list Row)
    (arg : string) :
  main_filter args rows = Ok data ->
  aggregate args = Some arg ->
  Str.count "=" arg = 1%nat ->
  (forall row, In row data ->
     exists cell, getitem row (Str.strip (before "=" arg)) = Ok cell) ->
  (exists row, In row data
               /\ cell_is_float (Str.strip (before "=" arg)) row = false) ->
  main args rows = ([print_rows data; not_numeric], Ok tt).
Proof.
  intros Hf Ha Hc Hall Hbad.
  rewrite (main_aggregate_branch args rows data arg Hf
             (exists_in_not_nil _ _ Hbad) Ha)
    by (apply (count_one_not_empty "="); lia).
  rewrite (main_aggregate_column _ _ Hc). cbv zeta.
  now rewrite (column_values_not_numeric _ _ Hall Hbad).
Qed.

Lemma main_aggregate_not_numeric_witness :
  main {| file := "people.csv"; where_ := None; aggregate := Some "name=max" |}
       [alice; bob]
  = ([print_rows [alice; bob]; not_numeric], Ok tt).
Proof.
  refine (main_aggregate_not_numeric
            {| file := "people.csv"; where_ := None;
               aggregate := Some "name=max" |}
            [alice; bob] [alice; bob] "name=max" eq_refl eq_refl eq_refl _ _).
  - intros row [<-|[<-|[]]]; eexists; reflexivity.
  - exists alice. split; [now left | reflexivity].
Defined.

(** With [--aggregate column=func] on a column whose cell is a number in
    every row, and [func] one of [avg], [min], [max], the run never fails:
    it prints the rows and a table with the one header [func] and the one
    cell that is the reducer's result on the numbers of the column, with
    two decimals. *)
Theorem main_aggregate_reducer (args : Args) (rows data : list Row)
    (arg : string) :
  main_filter args rows = Ok data ->
  data <> [] ->
  aggregate args = Some arg ->
  Str.count "=" arg = 1%nat ->
  (forall row, In row data ->
     cell_is_float (Str.strip (before "=" arg)) row = true) ->
  In (Str.strip (after "=" arg)) ["avg"; "min"; "max"] ->
  exists x,
    Aggregator.apply (Str.strip (after "=" arg))
      (map (float_cell (Str.strip (before "=" arg))) data)
    = Ok (NFloat x)
    /\ main args rows
       = ([print_rows data;
           print_table [[format_2f x]] [Str.strip (after "=" arg)]],
          Ok tt).
Proof.
  intros Hf Hd Ha Hc Hnum Hfunc.
  rewrite (main_aggregate_branch args rows data arg Hf Hd Ha)
    by (apply (count_one_not_empty "="); lia).
  rewrite (main_aggregate_column _ _ Hc). cbv zeta.
  rewrite (column_values_numeric _ _ Hnum).
  destruct data as [|row rest]; [now elim Hd|].
  set (values := map (float_cell (Str.strip (before "=" arg))) (row :: rest)).
  destruct Hfunc as [<-|[<-|[<-|[]]]]; eexists; (split; [reflexivity|]);
    reflexivity.
Qed.

Lemma main_aggregate_reducer_witness :
  exists x,
    Aggregator.apply (Str.strip (after "=" "age = max"))
      (map (float_cell (Str.strip (before "=" "age = max"))) [alice; bob])
    = Ok (NFloat x)
    /\ main {| file := "people.csv"; where_ := None;
               aggregate := Some "age = max" |}
            [alice; bob]
       = ([print_rows [alice; bob];
           print_table [[format_2f x]] [Str.strip (after "=" "age = max")]],
          Ok tt).
Proof.
  refine (main_aggregate_reducer
            {| file := "people.csv"; where_ := None;
               aggregate := Some "age = max" |}
            [alice; bob] [alice; bob] "age = max" eq_refl _ eq_refl eq_refl _ _).
  - discriminate.
  - intros row [<-|[<-|[]]]; reflexivity.
  - right. right. now left.
Defined.

(** With [--aggregate column=func] on a numeric column and a [func] that is
    neither [all] nor a name of the table, the run prints the rows and ends
    with the unsupported-function error. *)
Theorem main_aggregate_unsupported (args : Args) (rows data : list Row)
    (arg : string) :
  main_filter args rows = Ok data ->
  data <> [] ->
  aggregate args = Some arg ->
  Str.count "=" arg = 1%nat ->
  (forall row, In row data ->
     cell_is_float (Str.strip (before "=" arg)) row = true) ->
  ~ In (Str.strip (after "=" arg)) ["all"; "avg"; "min"; "max"] ->
  main args rows
  = ([print_rows data],
     Err (ValueError ("Unsupported aggregate function: "
                      ++ Str.strip (after "=" arg))%string)).
Proof.
  intros Hf Hd Ha Hc Hnum Hfunc.
  rewrite (main_aggregate_branch args rows data arg Hf Hd Ha)
    by (apply (count_one_not_empty "="); lia).
  rewrite (main_aggregate_column _ _ Hc). cbv zeta.
  rewrite (column_values_numeric _ _ Hnum).
  destruct (String.eqb_spec (Str.strip (after "=" arg)) "all") as [E|_].
  - elim Hfunc. left. now rewrite E.
  - unfold Aggregator.apply.
    destruct (Aggregator.has_key (Str.strip (after "=" arg))) eqn:E.
    + apply registered_names in E. elim Hfunc. now right.
    + reflexivity.
Qed.

Lemma main_aggregate_unsupported_witness :
  main {| file := "people.csv"; where_ := None; aggregate := Some "age=sum" |}
       [alice; bob]
  = ([print_rows [alice; bob]],
     Err (ValueError "Unsupported aggregate function: sum")).
Proof.
  refine (main_aggregate_unsupported
            {| file := "people.csv"; where_ := None;
               aggregate := Some "age=sum" |}
            [alice; bob] [alice; bob] "age=sum" eq_refl _ eq_refl eq_refl _ _).
  - discriminate.
  - intros row [<-|[<-|[]]]; reflexivity.
  - intros [H|[H|[H|[H|[]]]]]; discriminate H.
Defined.

(** With [--aggregate column=all] on a numeric column the run never fails:
    it prints the rows and a table of three rows, [avg], [min] and [max] of
    the column in this order, each with the name of the column. *)
Theorem main_aggregate_all (args : Args) (rows data : list Row) (arg : string) :
  main_filter args rows = Ok data ->
  data <> [] ->
  aggregate args = Some arg ->
  Str.count "=" arg = 1%nat ->
  (forall row, In row data ->
     cell_is_float (Str.strip (before "=" arg)) row = true) ->
  Str.strip (after "=" arg) = "all" ->
  exists a m M,
    Aggregator.all (map (float_cell (Str.strip (before "=" arg))) data)
    = Ok [("avg", a); ("min", m); ("max", M)]
    /\ main args rows
       = ([print_rows data;
           print_table [["avg"; Str.strip (before "=" arg); a];
                        ["min"; Str.strip (before "=" arg); m];
                        ["max"; Str.strip (before "=" arg); M]]
             table_headers],
          Ok tt).
Proof.
  intros Hf Hd Ha Hc Hnum Hfunc.
  rewrite (main_aggregate_branch args rows data arg Hf Hd Ha)
    by (apply (count_one_not_empty "="); lia).
  rewrite (main_aggregate_column _ _ Hc). cbv zeta.
  rewrite (column_values_numeric _ _ Hnum), Hfunc.
  destruct data as [|row rest]; [now elim Hd|].
  do 3 eexists. split; reflexivity.
Qed.

Lemma main_aggregate_all_witness :
  exists a m M,
    Aggregator.all (map (float_cell (Str.strip (before "=" "age=all"))) [alice])
    = Ok [("avg", a); ("min", m); ("max", M)]
    /\ main {| file := "people.csv"; where_ := Some "age>26";
               aggregate := Some "age=all" |}
            [alice; bob]
       = ([print_rows [alice];
           print_table [["avg"; Str.strip (before "=" "age=all"); a];
                        ["min"; Str.strip (before "=" "age=all"); m];
                        ["max"; Str.strip (before "=" "age=all"); M]]
             table_headers],
          Ok tt).
Proof.
  refine (main_aggregate_all
            {| file := "people.csv"; where_ := Some "age>26";
               aggregate := Some "age=all" |}
            [alice; bob] [alice] "age=all" eq_refl _ eq_refl eq_refl _ eq_refl).
  - discriminate.
  - intros row [<-|[]]; reflexivity.
Defined.

(** ** [aggregate_all_columns] *)

Lemma all_not_empty (x : float) (xs : list float) :
  exists a m M, Aggregator.all (x :: xs) = Ok [("avg", a); ("min", m); ("max", M)].
Proof.
  do 3 eexists. reflexivity.
Qed.

Lemma summary_rows_length (column : string) (row : Row) (rest : list Row) :
  List.length (summary_rows column (map (float_cell column) (row :: rest)))
  = 3%nat.
Proof.
  reflexivity.
Qed.

Lemma result_table_loop_total (columns : list string) (data : list Row)
    (acc : list (list string)) :
  data <> [] ->
  (forall column row, In column columns -> In row data ->
                      cell_is_float column row = true) ->
  result_table_loop columns data acc
  = Ok (acc ++ flat_map (fun column =>
                           summary_rows column (map (float_cell column) data))
                 columns).
Proof.
  intros Hd. revert acc.
  induction columns as [|column rest IH]; intros acc H; simpl.
  - now rewrite app_nil_r.
  - rewrite column_values_numeric by (intros row Hr; apply H; [now left | exact Hr]).
    simpl. unfold summary_rows at 1.
    destruct data as [|row0 rows]; [now elim Hd|].
    destruct (all_not_empty (float_cell column row0)
                (map (float_cell column) rows)) as (a & m & M & E).
    simpl map at 1 2. rewrite E. simpl bind.
    rewrite IH by (intros c r Hc Hr; apply H; [now right | exact Hr]).
    change (map (float_cell column) (row0 :: rows))
      with (float_cell column row0 :: map (float_cell column) rows).
    rewrite E. now rewrite <- app_assoc.
Qed.

Lemma numeric_keys_numeric (data : list Row) (column : string) (row : Row) :
  In column (numeric_keys data) -> In row data ->
  cell_is_float column row = true.
Proof.
  destruct data as [|row0 rest]; [intros []|].
  unfold numeric_keys. intros Hc Hr. apply filter_In in Hc.
  destruct Hc as [_ Hc]. rewrite forallb_forall in Hc. now apply Hc.
Qed.

(** On rows that all have the columns of the first row,
    [aggregate_all_columns] never fails.  It prints one table: for each
    column whose cell is a number in every row, in the order of the columns
    of the first row, the three rows [avg], [min], [max] of that column.  A
    run of [main] without [--where] and [--aggregate] prints the rows and
    this table. *)
Theorem aggregate_all_columns_total (row0 : Row) (rest : list Row) :
  (forall row key, In row (row0 :: rest) -> In key (keys row0) ->
                   exists cell, getitem row key = Ok cell) ->
  aggregate_all_columns (row0 :: rest)
  = ([print_table
        (flat_map (fun column =>
                     summary_rows column
                       (map (float_cell column) (row0 :: rest)))
           (numeric_keys (row0 :: rest)))
        table_headers],
     Ok tt)
  /\ (forall column,
        List.length (summary_rows column
                       (map (float_cell column) (row0 :: rest))) = 3%nat)
  /\ (forall args,
        truthy (where_ args) = None -> truthy (aggregate args) = None ->
        main args (row0 :: rest)
        = ([print_rows (row0 :: rest);
            print_table
              (flat_map (fun column =>
                           summary_rows column
                             (map (float_cell column) (row0 :: rest)))
                 (numeric_keys (row0 :: rest)))
              table_headers],
           Ok tt)).
Proof.
  intros H.
  assert (E : aggregate_all_columns (row0 :: rest)
              = ([print_table
                    (flat_map (fun column =>
                                 summary_rows column
                                   (map (float_cell column) (row0 :: rest)))
                       (numeric_keys (row0 :: rest)))
                    table_headers],
                 Ok tt)).
  { unfold aggregate_all_columns, numeric_columns. simpl first_row.
    cbv beta iota delta [bind].
    rewrite numeric_columns_loop_total by exact H.
    cbv beta iota delta [lift io_bind]. simpl app at 1.
    fold (numeric_keys (row0 :: rest)).
    rewrite result_table_loop_total;
      [reflexivity | discriminate |].
    intros column row Hc Hr.
    exact (numeric_keys_numeric (row0 :: rest) _ _ Hc Hr). }
  split; [exact E|]. split.
  - intros column. reflexivity.
  - intros args Hw Ha. unfold main, main_filter. rewrite Hw, Ha.
    cbv beta iota delta [lift io_bind print]. now rewrite E.
Qed.

Lemma aggregate_all_columns_total_witness :
  aggregate_all_columns [alice; bob]
  = ([print_table [["avg"; "age"; "27.50"]; ["min"; "age"; "25.00"];
                   ["max"; "age"; "30.00"]]
        table_headers],
     Ok tt).
Proof.
  refine (proj1 (aggregate_all_columns_total alice [bob] _)).
  intros row key [<-|[<-|[]]] [<-|[<-|[]]]; eexists; reflexivity.
Defined.

(** ** [main]: what a run prints and raises *)

(** On an empty list of rows the run prints the message that no data
    matched and ends without an error, unless the condition of [--where]
    does not parse; the argument of [--aggregate] is not looked at, and the
    first row, which is not there, is not read. *)
Theorem main_no_rows (args : Args) :
  main args []
  = match truthy (where_ args) with
    | Some condition =>
        match parse_condition condition with
        | Ok _ => ([no_data], Ok tt)
        | Err e => ([], Err e)
        end
    | None => ([no_data], Ok tt)
    end.
Proof.
  unfold main, main_filter.
  destruct (truthy (where_ args)) as [condition|]; [|reflexivity].
  destruct (parse_condition condition) as [[[column value] op_func]|e] eqn:Hp.
  - rewrite (filter_data_unfold _ _ _ _ _ Hp).
    now destruct (Float.parse value).
  - now rewrite (filter_data_parse_error _ _ _ Hp).
Qed.

Lemma unpack2_raises {A : Type} (l : list A) (e : exn) :
  unpack2 l = Err e -> exists msg, e = ValueError msg.
Proof.
  destruct l as [|a [|b [|c l]]]; simpl; try discriminate;
    intros H; injection H as <-; eauto.
Qed.

Lemma parse_condition_raises (condition : string) (e : exn) :
  parse_condition condition = Err e -> exists msg, e = ValueError msg.
Proof.
  rewrite parse_condition_first_operator.
  destruct (first_operator condition) as [[op_str op_func]|].
  - destruct (unpack2 (Str.split op_str condition)) as [[column value]|e']
      eqn:Hu; simpl; [discriminate|].
    intros H. injection H as <-. exact (unpack2_raises _ _ Hu).
  - intros H. injection H as <-. now eexists.
Qed.

Lemma filter_data_not_index_error (data : list Row) (condition : string)
    (e : exn) :
  filter_data data condition = Err e -> is_index_error e = false.
Proof.
  intros H.
  destruct (parse_condition condition) as [[[column value] op_func]|e'] eqn:Hp.
  - destruct (filter_data_raises_cases _ _ _ _ _ _ Hp H) as [->|[_ C]];
      [reflexivity|].
    destruct op_func; simpl in C; try discriminate C; now injection C as ->.
  - rewrite (filter_data_parse_error _ _ _ Hp) in H. injection H as <-.
    destruct (parse_condition_raises _ _ Hp) as (msg & ->). reflexivity.
Qed.

Lemma column_values_raises (data : list Row) (column : string) (e : exn) :
  column_values data column = Err e ->
  e = KeyError column \/ e = not_a_float.
Proof.
  induction data as [|row rest IH]; simpl; [discriminate|].
  destruct (getitem row column) as [cell|e'] eqn:Hc; simpl.
  - destruct (float_of_str cell) as [x|e'] eqn:Hx; simpl.
    + destruct (column_values rest column) as [xs|e']; simpl; [discriminate|].
      intros H. injection H as <-. now apply IH.
    + intros H. injection H as <-. right. exact (float_of_str_raises _ _ Hx).
  - intros H. injection H as <-. left. exact (getitem_raises _ _ _ Hc).
Qed.

Lemma all_raises (values : list float) (e : exn) :
  Aggregator.all values = Err e -> exists msg, e = ValueError msg.
Proof.
  destruct values as [|x xs]; [|discriminate].
  intros H. injection H as <-. now eexists.
Qed.

Lemma apply_raises (func : string) (values : list float) (e : exn) :
  Aggregator.apply func values = Err e -> exists msg, e = ValueError msg.
Proof.
  unfold Aggregator.apply.
  destruct (Aggregator.has_key func) eqn:E; simpl.
  - apply registered_names in E.
    destruct E as [<-|[<-|[<-|[]]]]; destruct values; simpl; try discriminate;
      intros H; injection H as <-; now eexists.
  - intros H. injection H as <-. now eexists.
Qed.

(** The branch [if args.aggregate:] prints one thing and ends, or raises
    and prints nothing; it does not raise an [IndexError]. *)
Lemma main_aggregate_outcome (data : list Row) (arg : string) :
  (exists o, main_aggregate data arg = ([o], Ok tt))
  \/ (exists e, main_aggregate data arg = ([], Err e)
                /\ is_index_error e = false).
Proof.
  unfold main_aggregate.
  destruct (Str.contains "=" arg); simpl; [|left; now eexists].
  destruct (unpack2 (Str.split "=" arg)) as [[column func]|e] eqn:Hu; simpl.
  - destruct (column_values data (Str.strip column)) as [values|e] eqn:Hv.
    + destruct (Str.strip func =? "all")%string.
      * destruct (Aggregator.all values) as [items|e] eqn:Ha; simpl;
          [left; now eexists|].
        right. exists e. split; [reflexivity|].
        destruct (all_raises _ _ Ha) as (msg & ->). reflexivity.
      * destruct (Aggregator.apply (Str.strip func) values) as [r|e] eqn:Ha;
          simpl; [left; now eexists|].
        right. exists e. split; [reflexivity|].
        destruct (apply_raises _ _ _ Ha) as (msg & ->). reflexivity.
    + destruct (column_values_raises _ _ _ Hv) as [->| ->].
      * right. eexists. split; reflexivity.
      * left. now eexists.
  - right. exists e. split; [reflexivity|].
    destruct (unpack2_raises _ _ Hu) as (msg & ->). reflexivity.
Qed.

Lemma all_rows_numeric_raises (key : string) (data : list Row) (e : exn) :
  all_rows (is_numeric_cell key) data = Err e -> e = KeyError key.
Proof.
  induction data as [|row rest IH]; simpl; [discriminate|].
  unfold is_numeric_cell at 1.
  destruct (getitem row key) as [cell|e'] eqn:Hc; simpl.
  - unfold try_float, float_of_str. destruct (Float.parse cell); simpl.
    + exact IH.
    + discriminate.
  - intros H. injection H as <-. exact (getitem_raises _ _ _ Hc).
Qed.

Lemma numeric_columns_loop_raises (ks : list string) (data : list Row)
    (acc : list string) (e : exn) :
  numeric_columns_loop ks data acc = Err e -> is_index_error e = false.
Proof.
  revert acc. induction ks as [|key rest IH]; intros acc; simpl;
    [discriminate|].
  destruct (all_rows (is_numeric_cell key) data) as [b|e'] eqn:Ha; simpl.
  - apply IH.
  - intros H. injection H as <-.
    now rewrite (all_rows_numeric_raises _ _ _ Ha).
Qed.

Lemma result_table_loop_raises (columns : list string) (data : list Row)
    (acc : list (list string)) (e : exn) :
  result_table_loop columns data acc = Err e -> is_index_error e = false.
Proof.
  revert acc. induction columns as [|column rest IH]; intros acc; simpl;
    [discriminate|].
  destruct (column_values data column) as [values|e'] eqn:Hv; simpl.
  - destruct (Aggregator.all values) as [items|e'] eqn:Ha; simpl.
    + apply IH.
    + intros H. injection H as <-.
      destruct (all_raises _ _ Ha) as (msg & ->). reflexivity.
  - intros H. injection H as <-.
    destruct (column_values_raises _ _ _ Hv) as [->| ->]; reflexivity.
Qed.

(** On rows, [aggregate_all_columns] prints its table and ends, or raises
    and prints nothing; it does not raise an [IndexError]. *)
Lemma aggregate_all_columns_outcome (row0 : Row) (rest : list Row) :
  (exists o, aggregate_all_columns (row0 :: rest) = ([o], Ok tt))
  \/ (exists e, aggregate_all_columns (row0 :: rest) = ([], Err e)
                /\ is_index_error e = false).
Proof.
  unfold aggregate_all_columns, numeric_columns. simpl first_row.
  cbv beta iota delta [bind].
  destruct (numeric_columns_loop (keys row0) (row0 :: rest) [])
    as [columns|e] eqn:Hn.
  - cbv beta iota delta [lift io_bind]. simpl app.
    destruct (result_table_loop columns (row0 :: rest) []) as [table|e] eqn:Ht.
    + left. now eexists.
    + right. exists e. split; [reflexivity|].
      exact (result_table_loop_raises _ _ _ _ Ht).
  - right. exists e. split; [reflexivity|].
    exact (numeric_columns_loop_raises _ _ _ _ Hn).
Qed.

(** The rows are printed first, and once: a run whose filter raises prints
    nothing; a run whose filter leaves no row prints the one message; any
    other run prints the rows and then, if it ends without an error, one
    more message or table, and nothing more if it raises. *)
Theorem main_output (args : Args) (rows : list Row) :
  match main_filter args rows with
  | Err e => main args rows = ([], Err e)
  | Ok [] => main args rows = ([no_data], Ok tt)
  | Ok (row :: rest) =>
      (exists o, main args rows = ([print_rows (row :: rest); o], Ok tt))
      \/ (exists e, main args rows = ([print_rows (row :: rest)], Err e))
  end.
Proof.
  unfold main.
  destruct (main_filter args rows) as [[|row rest]|e]; try reflexivity.
  cbv beta iota delta [lift io_bind print].
  destruct (truthy (aggregate args)) as [arg|].
  - destruct (main_aggregate_outcome (row :: rest) arg)
      as [(o & ->)|(e & -> & _)]; [left | right]; now eexists.
  - destruct (aggregate_all_columns_outcome row rest)
      as [(o & ->)|(e & -> & _)]; [left | right]; now eexists.
Qed.

(** [aggregate_all_columns] reads the first row, and raises an
    [IndexError] exactly on the empty list.  [main] returns before it calls
    it with no rows: a run of [main] never ends with an [IndexError]. *)
Theorem main_never_index_error :
  (forall data,
      (exists e, snd (aggregate_all_columns data) = Err e
                 /\ is_index_error e = true)
      <-> data = [])
  /\ (forall args rows e,
        snd (main args rows) = Err e -> is_index_error e = false).
Proof.
  split.
  - intros [|row0 rest]; split.
    + reflexivity.
    + intros _. eexists. split; reflexivity.
    + intros (e & He & Hi).
      destruct (aggregate_all_columns_outcome row0 rest)
        as [(o & E)|(e' & E & Hn)]; rewrite E in He; simpl in He.
      * discriminate He.
      * injection He as <-. rewrite Hn in Hi. discriminate Hi.
    + discriminate.
  - intros args rows e. unfold main.
    destruct (main_filter args rows) as [[|row rest]|e'] eqn:Hf.
    + discriminate.
    + cbv beta iota delta [lift io_bind print].
      destruct (truthy (aggregate args)) as [arg|].
      * destruct (main_aggregate_outcome (row :: rest) arg)
          as [(o & ->)|(e' & -> & Hn)]; simpl; [discriminate|].
        intros H. now injection H as <-.
      * destruct (aggregate_all_columns_outcome row rest)
          as [(o & ->)|(e' & -> & Hn)]; simpl; [discriminate|].
        intros H. now injection H as <-.
    + simpl. intros H. injection H as <-.
      unfold main_filter in Hf.
      destruct (truthy (where_ args)) as [condition|]; [|discriminate Hf].
      exact (filter_data_not_index_error _ _ _ Hf).
Qed.

Lemma main_never_index_error_witness :
  is_index_error (KeyError "salary") = false.
Proof.
  exact (proj2 main_never_index_error
           {| file := "people.csv"; where_ := Some "salary>10";
              aggregate := None |}
           [alice; bob] (KeyError "salary") eq_refl).
Defined.

(** ** The white space of [float] *)

(** [str.strip] removes U+001F and [float] does not: a cell with it is not
    a number.  U+00A0 is removed by both. *)
Lemma float_white_space :
  Str.strip (String "031" "7") = "7"
  /\ Float.parse (String "031" "7") = None
  /\ Float.parse (String "055" (String "031" EmptyString)) = None
  /\ Float.parse (String "160" "7") = Float.parse "7"
  /\ Float.parse "7" = Some (Float.of_Z 7).
Proof.
  repeat split.
Qed.

(** Runs on a column with such a cell: it is not a numeric column. *)
Lemma padded_cell_is_not_numeric :
  filter_data [padded_row; plain_row] "v=7" = Ok []
  /\ filter_data [padded_row; plain_row] "v>7"
     = Err (TypeError "'>' not supported between instances of 'str' and 'float'")
  /\ numeric_columns [padded_row; plain_row] = Ok []
  /\ main {| file := "cells.csv"; where_ := None; aggregate := Some "v=max" |}
          [padded_row; plain_row]
     = ([print_rows [padded_row; plain_row]; not_numeric], Ok tt).
Proof.
  repeat split.
Qed.
